(** * no-circula-bot: the circulation rules of [reglas_service.py]

    A shallow embedding of [evaluar_circulacion] and of the tables and
    helpers it reads, followed by the properties of the evaluation engine.

    Python values are modelled as follows: [int] as [Z], [str] as [string]
    (UTF-8 bytes), [list[int]] as [list Z], [dict[int, _]] as [gmap Z _],
    the string-backed enums as inductive types together with their [value],
    [datetime.date] as a record of year, month and day, and a raised
    [ValueError] as the left injection of a sum. *)

From Stdlib Require Import ZArith String Ascii List Lia DecimalString.
From stdpp Require Import base decidable option list gmap strings.

Local Open Scope string_scope.
Local Open Scope Z_scope.

(** ** [datetime.date] (Python standard library)

    The proleptic Gregorian ordinal and [isoweekday], following the pure
    Python implementation of the [datetime] module. *)

Record date : Type := mk_date { year : Z; month : Z; day : Z }.

Definition _is_leap (y : Z) : bool :=
  (y mod 4 =? 0) && (negb (y mod 100 =? 0) || (y mod 400 =? 0)).

Definition _days_before_year (y : Z) : Z :=
  let y := y - 1 in
  y * 365 + y / 4 - y / 100 + y / 400.

Definition _DAYS_IN_MONTH : list Z :=
  [-1; 31; 28; 31; 30; 31; 30; 31; 31; 30; 31; 30; 31].

Definition _DAYS_BEFORE_MONTH : list Z :=
  [-1; 0; 31; 59; 90; 120; 151; 181; 212; 243; 273; 304; 334].

Definition _days_in_month (y m : Z) : Z :=
  if (m =? 2) && _is_leap y then 29
  else default 0 (_DAYS_IN_MONTH !! Z.to_nat m).

Definition _days_before_month (y m : Z) : Z :=
  default 0 (_DAYS_BEFORE_MONTH !! Z.to_nat m)
  + (if (2 <? m) && _is_leap y then 1 else 0).

Definition _ymd2ord (y m d : Z) : Z :=
  _days_before_year y + _days_before_month y m + d.

(** The checks of the [date] constructor: [MINYEAR <= year <= MAXYEAR],
    [1 <= month <= 12], [1 <= day <= days in month]. *)
Definition date_valida (f : date) : bool :=
  (1 <=? year f) && (year f <=? 9999)
  && (1 <=? month f) && (month f <=? 12)
  && (1 <=? day f) && (day f <=? _days_in_month (year f) (month f)).

Definition toordinal (f : date) : Z := _ymd2ord (year f) (month f) (day f).

(** [self.toordinal() % 7 or 7] *)
Definition isoweekday (f : date) : Z :=
  let r := toordinal f mod 7 in
  if r =? 0 then 7 else r.

(** ** Python string helpers used by the f-strings *)

(** [str(n)] for an [int]. *)
Definition str_int (n : Z) : string := NilZero.string_of_int (Z.to_int n).

(** [s.replace(a, b)] for one-character [a] and [b]. *)
Fixpoint str_replace (a b : ascii) (s : string) : string :=
  match s with
  | EmptyString => EmptyString
  | String c s' => String (if Ascii.eqb c a then b else c) (str_replace a b s')
  end.

(** [s.upper()] on ASCII text: bytes outside [a-z] are unchanged. *)
Definition ascii_upper (c : ascii) : ascii :=
  let n := nat_of_ascii c in
  if ((97 <=? n)%nat && (n <=? 122)%nat) then ascii_of_nat (n - 32)%nat else c.

Fixpoint str_upper (s : string) : string :=
  match s with
  | EmptyString => EmptyString
  | String c s' => String (ascii_upper c) (str_upper s')
  end.

(** [sep.join(l)] *)
Fixpoint str_join (sep : string) (l : list string) : string :=
  match l with
  | [] => ""
  | [x] => x
  | x :: l' => x +:+ sep +:+ str_join sep l'
  end.

(** [repr] of a [str] without quotes, backslashes or control characters,
    and of a list of such strings. *)
Definition repr_str (s : string) : string := "'" +:+ s +:+ "'".

Definition repr_list_str (l : list string) : string :=
  "[" +:+ str_join ", " (map repr_str l) +:+ "]".

(** ** Enumerations *)

(** [contingencia_service.NivelContingencia] *)
Inductive NivelContingencia : Type := NINGUNA | FASE_1 | FASE_2.

Definition NivelContingencia_value (n : NivelContingencia) : string :=
  match n with
  | NINGUNA => "ninguna"
  | FASE_1 => "fase_1"
  | FASE_2 => "fase_2"
  end.

#[global] Instance NivelContingencia_eq_dec : EqDecision NivelContingencia.
Proof. solve_decision. Defined.

Inductive Holograma : Type := CERO_CERO | CERO | UNO | DOS.

Definition Holograma_value (h : Holograma) : string :=
  match h with
  | CERO_CERO => "00"
  | CERO => "0"
  | UNO => "1"
  | DOS => "2"
  end.

#[global] Instance Holograma_eq_dec : EqDecision Holograma.
Proof. solve_decision. Defined.

(** The members in definition order, as iterating over the class yields. *)
Definition Holograma_members : list Holograma := [CERO_CERO; CERO; UNO; DOS].

(** [Holograma(v)]: lookup of a member by value; [None] stands for the
    [ValueError] the enum machinery raises. *)
Definition Holograma_of_value (v : string) : option Holograma :=
  find (fun h => String.eqb (Holograma_value h) v) Holograma_members.

(** ** Rule tables *)

Definition RESTRICCION_SEMANAL : gmap Z (list Z) :=
  list_to_map [(1, [5; 6]); (2, [7; 8]); (3, [3; 4]); (4, [1; 2]); (5, [9; 0])].

Definition SABADO_SEMANAS_IMPARES : list Z := [5; 6; 7; 8].
Definition SABADO_SEMANAS_PARES : list Z := [0; 1; 2; 3; 4; 9].

Definition FASE2_RESTRICCION_HOLOGRAMA_0_00 : gmap Z (list Z) :=
  list_to_map
    [(1, [0; 1; 2; 3; 4]); (2, [5; 6; 7; 8; 9]); (3, [0; 1; 2; 3; 4]);
     (4, [5; 6; 7; 8; 9]); (5, [0; 1; 2; 3; 4])].

(** [x in l] on a list of integers. *)
Definition en (x : Z) (l : list Z) : bool := bool_decide (x ∈ l).

(** [k in d] on a dictionary. *)
Definition en_dict {A} (k : Z) (d : gmap Z A) : bool := bool_decide (is_Some (d !! k)).

(** [n in range(a, b)] for an [int] [n]. *)
Definition en_range (n a b : Z) : bool := (a <=? n) && (n <? b).

(** ** Results *)

Record ResultadoCirculacion : Type := mk_ResultadoCirculacion {
  puede_circular : bool;
  razon : string;
  restriccion_normal : bool;
  restriccion_contingencia : bool;
  nivel_contingencia : NivelContingencia;
  dia : string;
  holograma : string;
  ultimo_digito : Z
}.

(** Exceptions a call can raise. *)
Inductive excepcion : Type := ValueError (mensaje : string).

(** A small error monad for code that may raise. *)
Definition resultado (A : Type) : Type := excepcion + A.

Definition raise {A} (e : excepcion) : resultado A := inl e.
Definition ret {A} (a : A) : resultado A := inr a.
Definition bind {A B} (m : resultado A) (k : A -> resultado B) : resultado B :=
  match m with
  | inl e => inl e
  | inr a => k a
  end.

Notation "'let*' x ':=' m 'in' k" := (bind m (fun x => k))
  (at level 10, x name, m at level 100, k at level 200).

(** ** The evaluation engine *)

Definition _semana_del_mes (fecha : date) : Z := (day fecha - 1) / 7 + 1.

Definition _digitos_restringidos_sabado (fecha : date) : list Z :=
  let semana := _semana_del_mes fecha in
  if negb (semana mod 2 =? 0) then SABADO_SEMANAS_IMPARES else SABADO_SEMANAS_PARES.

Definition NOMBRES_DIA : gmap Z string :=
  list_to_map
    [(1, "lunes"); (2, "martes"); (3, "miércoles"); (4, "jueves");
     (5, "viernes"); (6, "sábado"); (7, "domingo")].

Section Evaluacion.

(** What the call reads from its environment: the value of
    [date.today()] and the weekday names of the system locale, as
    [strftime("%A")] renders them. *)
Variable date_today : date.
Variable strftime_A : date -> string.

Definition evaluar_circulacion
    (ultimo_digito : Z) (holograma : string)
    (nivel_contingencia : NivelContingencia) (fecha : option date)
    : resultado ResultadoCirculacion :=
  let fecha := match fecha with None => date_today | Some f => f end in
  let* holograma_enum :=
    match Holograma_of_value holograma with
    | Some h => ret h
    | None =>
        raise (ValueError
          ("Holograma inválido: '" +:+ holograma +:+ "'. " +:+
           "Valores aceptados: " +:+
           repr_list_str (map Holograma_value Holograma_members)))
    end in
  let* _ :=
    (if negb (en_range ultimo_digito 0 10)
     then raise (ValueError
            ("Último dígito debe ser entre 0 y 9. Se recibió: " +:+
             str_int ultimo_digito))
     else ret tt) in
  let dia_iso := isoweekday fecha in
  let nombre_dia := strftime_A fecha in
  let nombre_dia_es := default nombre_dia (NOMBRES_DIA !! dia_iso) in
  let restriccion_normal := false in
  let restriccion_contingencia := false in
  if bool_decide (holograma_enum ∈ [CERO_CERO; CERO]) then
    let exento :=
      ret (mk_ResultadoCirculacion
             true
             ("Holograma " +:+ holograma +:+
              " está exento del programa Hoy No Circula.")
             false false nivel_contingencia nombre_dia_es
             holograma ultimo_digito) in
    if bool_decide (nivel_contingencia = FASE_2) then
      let digitos_restringidos :=
        default [] (FASE2_RESTRICCION_HOLOGRAMA_0_00 !! dia_iso) in
      if en ultimo_digito digitos_restringidos then
        let restriccion_contingencia := true in
        ret (mk_ResultadoCirculacion
               false
               ("Holograma " +:+ holograma +:+
                ": normalmente exento, pero en CONTINGENCIA FASE 2 " +:+
                "el " +:+ nombre_dia_es +:+
                " no circulan placas terminadas en " +:+
                str_int ultimo_digito +:+ ".")
               false true nivel_contingencia nombre_dia_es
               holograma ultimo_digito)
      else exento
    else exento
  else
    let restriccion_normal :=
      if en_dict dia_iso RESTRICCION_SEMANAL then
        let digitos_hoy := default [] (RESTRICCION_SEMANAL !! dia_iso) in
        if en ultimo_digito digitos_hoy then true else restriccion_normal
      else restriccion_normal in
    let restriccion_normal :=
      if (dia_iso =? 6) && bool_decide (holograma_enum = DOS) then
        let digitos_sabado := _digitos_restringidos_sabado fecha in
        if en ultimo_digito digitos_sabado then true else restriccion_normal
      else restriccion_normal in
    let restriccion_contingencia :=
      if bool_decide (nivel_contingencia = FASE_2) && en_range dia_iso 1 6
      then true else restriccion_contingencia in
    let restriccion_contingencia :=
      if bool_decide (nivel_contingencia = FASE_1)
      then restriccion_normal else restriccion_contingencia in
    let no_circula := restriccion_normal || restriccion_contingencia in
    let razon :=
      if no_circula then
        let causas : list string := [] in
        let causas :=
          if restriccion_normal
          then (causas ++ ["programa Hoy No Circula regular"])%list
          else causas in
        let causas :=
          if restriccion_contingencia && negb restriccion_normal
          then (causas ++
                 ["contingencia ambiental " +:+
                  str_upper (str_replace "_" " "
                    (NivelContingencia_value nivel_contingencia))])%list
          else causas in
        "Placa terminada en " +:+ str_int ultimo_digito +:+
        " con holograma " +:+ holograma +:+ " " +:+
        "NO CIRCULA el " +:+ nombre_dia_es +:+ " por: " +:+
        str_join ", " causas +:+ "."
      else
        "Placa terminada en " +:+ str_int ultimo_digito +:+
        " con holograma " +:+ holograma +:+ " " +:+
        "puede circular el " +:+ nombre_dia_es +:+ " sin restricciones." in
    ret (mk_ResultadoCirculacion
           (negb no_circula) razon restriccion_normal
           restriccion_contingencia nivel_contingencia nombre_dia_es
           holograma ultimo_digito).

End Evaluacion.

(** ** Vocabulary of the specification *)

(** The values of the four sticker categories and the two groups the rules
    distinguish. *)
Definition hologramas_validos : list string := ["00"; "0"; "1"; "2"].
Definition hologramas_exentos : list string := ["00"; "0"].
Definition hologramas_restringidos : list string := ["1"; "2"].

(** The date an evaluation is about: the one passed, or today's. *)
Definition fecha_evaluada (date_today : date) (fecha : option date) : date :=
  default date_today fecha.

(** [sub in s] on strings. *)
Fixpoint contiene (sub s : string) : bool :=
  String.prefix sub s
  || match s with
     | EmptyString => false
     | String _ s' => contiene sub s'
     end.

(** How a level is shown in a reason: ["FASE 1"], ["FASE 2"]. *)
Definition etiqueta_nivel (n : NivelContingencia) : string :=
  str_upper (str_replace "_" " " (NivelContingencia_value n)).

(** A reason cites the regular program. *)
Definition cita_programa_regular (razon : string) : bool :=
  contiene "programa Hoy No Circula regular" razon.

(** A reason cites the environmental contingency together with its level,
    in whatever letter case. *)
Definition cita_contingencia (n : NivelContingencia) (razon : string) : bool :=
  contiene "CONTINGENCIA" (str_upper razon)
  && contiene (etiqueta_nivel n) (str_upper razon).

(** A reason that reports no restriction: either the plate may drive
    without restrictions or the sticker is exempt from the program. *)
Definition mensaje_sin_restriccion (razon : string) : bool :=
  contiene "sin restricciones" razon || contiene "exento del programa" razon.

(** The digits the Phase 2 table withdraws from exempt stickers, as the
    specification lists them: Monday, Wednesday and Friday 0 to 4; Tuesday
    and Thursday 5 to 9; nothing on Saturday and Sunday. *)
Definition fase2_exentos_segun_tabla (dia_iso d : Z) : Prop :=
  ((dia_iso = 1 \/ dia_iso = 3 \/ dia_iso = 5) /\ 0 <= d <= 4)
  \/ ((dia_iso = 2 \/ dia_iso = 4) /\ 5 <= d <= 9).

(** The reason of a result cites every cause whose flag is set, and is a
    no-restriction message when the vehicle may drive. *)
Definition razon_cita_toda_causa
    (n : NivelContingencia) (r : ResultadoCirculacion) : Prop :=
  (puede_circular r = false ->
     (restriccion_normal r = true -> cita_programa_regular (razon r) = true)
     /\ (restriccion_contingencia r = true ->
         cita_contingencia n (razon r) = true))
  /\ (puede_circular r = true -> mensaje_sin_restriccion (razon r) = true).

(** The reason of a result cites one cause: the regular program when its
    flag is set, the contingency and its level otherwise. *)
Definition razon_cita_causa_principal
    (n : NivelContingencia) (r : ResultadoCirculacion) : Prop :=
  (puede_circular r = false ->
     (restriccion_normal r = true -> cita_programa_regular (razon r) = true)
     /\ (restriccion_contingencia r = true -> restriccion_normal r = false ->
         cita_contingencia n (razon r) = true)
     /\ (restriccion_contingencia r = true -> restriccion_normal r = true ->
         cita_contingencia n (razon r) = false))
  /\ (puede_circular r = true -> mensaje_sin_restriccion (razon r) = true).

(** An environment for concrete evaluations: 1 January 2024 (a Monday) as
    today, and the weekday names of the C locale. *)
Definition hoy_ejemplo : date := mk_date 2024 1 1.

Definition strftime_A_C (f : date) : string :=
  default ""
    (["Monday"; "Tuesday"; "Wednesday"; "Thursday"; "Friday"; "Saturday";
      "Sunday"] !! Z.to_nat (isoweekday f - 1)).

(** The verdict of a call, when it returns one. *)
Definition veredicto (m : resultado ResultadoCirculacion) : option bool :=
  match m with
  | inr r => Some (puede_circular r)
  | inl _ => None
  end.

(** One date for each weekday of an odd and of an even week of the month:
    1 to 14 January 2024. *)
Definition fechas_representativas : list date :=
  map (fun k => mk_date 2024 1 k) [1; 2; 3; 4; 5; 6; 7; 8; 9; 10; 11; 12; 13; 14].

#[global] Instance razon_cita_causa_principal_dec n r :
  Decision (razon_cita_causa_principal n r).
Proof. unfold razon_cita_causa_principal. apply _. Defined.

(** The evaluation of one input returns a result whose reason cites its
    main cause. *)
Definition cita_causa_principal_en
    (d : Z) (h : string) (n : NivelContingencia) (f : date) : bool :=
  match evaluar_circulacion hoy_ejemplo strftime_A_C d h n (Some f) with
  | inr r => bool_decide (razon_cita_causa_principal n r)
  | inl _ => false
  end.

(** ** [contingencia_service.py]

    The network, the HTML parser and the regular expressions are outside
    the program: [requests.get], the text BeautifulSoup extracts and the
    searches of the two compiled patterns are parameters, and so is the
    class of whitespace characters that [\s] and [str.strip] share.  In this
    part a [string] is the sequence of characters of a text. *)

(** Truth value of a [str] and of an [Optional[str]]. *)
Definition str_bool (s : string) : bool :=
  match s with
  | EmptyString => false
  | String _ _ => true
  end.

Definition opt_str_bool (s : option string) : bool :=
  match s with
  | Some s => str_bool s
  | None => false
  end.

(** [len(s)] *)
Definition len (s : string) : Z := Z.of_nat (String.length s).

(** [s[i:j]], with Python's treatment of negative and of too large
    indices. *)
Definition str_slice (i j : Z) (s : string) : string :=
  let norm k := if k <? 0 then Z.max 0 (k + len s) else Z.min k (len s) in
  substring (Z.to_nat (norm i)) (Z.to_nat (norm j - norm i)) s.

Section Espacios.

(** The characters [\s] matches and [str.strip] removes. *)
Variable isspace : ascii -> bool.

Fixpoint str_lstrip (s : string) : string :=
  match s with
  | EmptyString => EmptyString
  | String c s' => if isspace c then str_lstrip s' else s
  end.

Fixpoint str_rstrip (s : string) : string :=
  match s with
  | EmptyString => EmptyString
  | String c s' =>
      match str_rstrip s' with
      | EmptyString => if isspace c then EmptyString else String c EmptyString
      | r => String c r
      end
  end.

(** [s.strip()] *)
Definition str_strip (s : string) : string := str_rstrip (str_lstrip s).

(** [re.sub(r"\s{2,}", " ", s)]: every maximal run of two or more
    whitespace characters becomes one space; [en_racha] tells that the
    characters read belong to a run already replaced. *)
Fixpoint re_sub_espacios_desde (en_racha : bool) (s : string) : string :=
  match s with
  | EmptyString => EmptyString
  | String c s' =>
      if isspace c then
        if en_racha then re_sub_espacios_desde true s'
        else
          match s' with
          | EmptyString => String c EmptyString
          | String c' _ =>
              if isspace c' then String " " (re_sub_espacios_desde true s')
              else String c (re_sub_espacios_desde false s')
          end
      else String c (re_sub_espacios_desde false s')
  end.

Definition re_sub_espacios (s : string) : string :=
  re_sub_espacios_desde false s.

End Espacios.

(** The outcome of [requests.get(url, headers=HEADERS, timeout=TIMEOUT)],
    by the handler that receives it: an exception that is a
    [requests.Timeout], one that is a [requests.ConnectionError], another
    [requests.RequestException] (each with its [str]), or a response with
    its status code and text. *)
Inductive respuesta_get : Type :=
  | GetTimeout
  | GetConnectionError (exc : string)
  | GetRequestException (exc : string)
  | GetResponse (status_code : Z) (text : string).

(** What the code reads of a [re.Match]: [start()] and [end()]. *)
Record Match : Type := mk_Match { m_start : Z; m_end : Z }.

Definition CAME_URLS : list string :=
  ["https://www.gob.mx/comisionambiental/acciones-y-programas/contingencias-ambientales-atmosfericas";
   "https://www.gob.mx/comisionambiental"].

Definition TIMEOUT : Z := 15.

Definition _SNIPPET_RADIO : Z := 250.

(** The dictionary [verificar_contingencia] returns. *)
Record ResultadoContingencia : Type := mk_ResultadoContingencia {
  hay_contingencia : bool;
  fase : option string;
  detalle : string
}.

Definition fase_a_nivel (fase : option string) : NivelContingencia :=
  let _mapa : gmap string NivelContingencia :=
    list_to_map [("Fase 1", FASE_1); ("Fase 2", FASE_2)] in
  default NINGUNA (fase ≫= (fun k => _mapa !! k)).

Section Contingencia.

Variable isspace : ascii -> bool.
Variable requests_get : string -> respuesta_get.

(** [BeautifulSoup(html, "html.parser")], the removal of the noise tags and
    [get_text(separator=" ", strip=True)]. *)
Variable soup_get_text : string -> string.

(** [_RE_FASE_2.search] and [_RE_FASE_1.search]. *)
Variable _RE_FASE_2_search : string -> option Match.
Variable _RE_FASE_1_search : string -> option Match.

Definition _fetch_html (url : string) : option string * option string :=
  match requests_get url with
  | GetTimeout =>
      let msg := "Timeout (" +:+ str_int TIMEOUT +:+ "s) al conectar con "
                 +:+ url +:+ "." in
      (None, Some msg)
  | GetConnectionError exc =>
      let msg := "Error de conexión con " +:+ url +:+ ": " +:+ exc in
      (None, Some msg)
  | GetRequestException exc =>
      let msg := "Error inesperado al consultar " +:+ url +:+ ": " +:+ exc in
      (None, Some msg)
  | GetResponse status_code text =>
      if negb (status_code =? 200) then
        let msg := "El servidor respondió con HTTP " +:+ str_int status_code
                   +:+ " " +:+ "(esperado 200) para " +:+ url +:+ "." in
        (None, Some msg)
      else (Some text, None)
  end.

Definition _extraer_texto_limpio (html : string) : string :=
  let texto := soup_get_text html in
  str_strip isspace (re_sub_espacios isspace texto).

Definition _extraer_snippet (texto : string) (match_ : Match) : string :=
  let inicio := Z.max 0 (m_start match_ - _SNIPPET_RADIO) in
  let fin := Z.min (len texto) (m_end match_ + _SNIPPET_RADIO) in
  let fragmento := str_strip isspace (str_slice inicio fin texto) in
  re_sub_espacios isspace fragmento.

Definition _detectar_fase (texto : string) : option string * string :=
  match _RE_FASE_2_search texto with
  | Some match_ => (Some "Fase 2", _extraer_snippet texto match_)
  | None =>
      match _RE_FASE_1_search texto with
      | Some match_ => (Some "Fase 1", _extraer_snippet texto match_)
      | None =>
          (None,
           "Sin contingencia activa: no se encontraron menciones de Fase 1 o Fase 2 en la página.")
      end
  end.

(** The loop of [verificar_contingencia] over the URLs that are left, with
    the errors collected so far, and what follows it. *)
Fixpoint verificar_contingencia_desde
    (urls : list string) (errores : list string) : ResultadoContingencia :=
  match urls with
  | [] =>
      let detalle_error :=
        "No se pudo consultar el portal de la CAMe. " +:+
        "Errores encontrados: " +:+ str_join " | " errores in
      mk_ResultadoContingencia false None detalle_error
  | url :: urls' =>
      let '(html, error) := _fetch_html url in
      if opt_str_bool error || bool_decide (html = None) then
        verificar_contingencia_desde urls'
          (errores ++
           [if opt_str_bool error then default "" error
            else "Respuesta vacía de " +:+ url])%list
      else
        let html := default "" html in
        let texto := _extraer_texto_limpio html in
        let texto := if negb (str_bool texto) then html else texto in
        let '(fase, detalle) := _detectar_fase texto in
        let hay_contingencia := bool_decide (fase <> None) in
        mk_ResultadoContingencia hay_contingencia fase detalle
  end.

Definition verificar_contingencia : ResultadoContingencia :=
  verificar_contingencia_desde CAME_URLS [].

End Contingencia.

(** A text has a run of two or more whitespace characters. *)
Fixpoint tiene_racha (isspace : ascii -> bool) (s : string) : bool :=
  match s with
  | EmptyString => false
  | String c s' =>
      match s' with
      | EmptyString => false
      | String c' _ => (isspace c && isspace c') || tiene_racha isspace s'
      end
  end.

(** The whitespace of ASCII text: space, tab, line feed, vertical tab, form
    feed, carriage return and the four separators 28 to 31. *)
Definition isspace_ascii (c : ascii) : bool :=
  let n := nat_of_ascii c in
  ((9 <=? n)%nat && (n <=? 13)%nat) || ((28 <=? n)%nat && (n <=? 32)%nat).

(** The first occurrence of a fixed text, as a search that stands for a
    compiled pattern in concrete evaluations. *)
Definition busca (sub s : string) : option Match :=
  match String.index 0 sub s with
  | Some n => Some (mk_Match (Z.of_nat n) (Z.of_nat n + len sub))
  | None => None
  end.

(** A network on which every request times out, and one that answers
    every request with the same page. *)
Definition red_caida (url : string) : respuesta_get := GetTimeout.

Definition red_con_pagina (html url : string) : respuesta_get :=
  GetResponse 200 html.

(** ** [main.py]

    The process environment ([os.environ] once [load_dotenv] has run) is a
    map from names to values; [int] applied to a [str] is a parameter, with
    [None] for the [ValueError] it raises; logging is left out. *)

(** The line feed of ["\n"]. *)
Definition nl : string := String (ascii_of_nat 10) EmptyString.

(** [s.lower()] on ASCII text: bytes outside [A-Z] are unchanged, which is
    all a comparison with an ASCII word can see. *)
Definition ascii_lower (c : ascii) : ascii :=
  let n := nat_of_ascii c in
  if ((65 <=? n)%nat && (n <=? 90)%nat) then ascii_of_nat (n + 32)%nat else c.

Fixpoint str_lower (s : string) : string :=
  match s with
  | EmptyString => EmptyString
  | String c s' => String (ascii_lower c) (str_lower s')
  end.

(** The dictionary [cargar_configuracion] returns; the fields are its
    keys. *)
Record Config : Type := mk_Config {
  config_ultimo_digito : option Z;
  config_holograma : string;
  config_notificar_solo_no_circula : bool
}.

(** [formatear_fecha]; [None] stands for the [KeyError] of a missing key. *)
Definition formatear_fecha (fecha : date) : option string :=
  let meses : gmap Z string :=
    list_to_map
      [(1, "enero"); (2, "febrero"); (3, "marzo"); (4, "abril");
       (5, "mayo"); (6, "junio"); (7, "julio"); (8, "agosto");
       (9, "septiembre"); (10, "octubre"); (11, "noviembre");
       (12, "diciembre")] in
  let dias : gmap Z string :=
    list_to_map
      [(1, "lunes"); (2, "martes"); (3, "miércoles"); (4, "jueves");
       (5, "viernes"); (6, "sábado"); (7, "domingo")] in
  nombre_dia ← dias !! isoweekday fecha;
  nombre_mes ← meses !! month fecha;
  Some (nombre_dia +:+ " " +:+ str_int (day fecha) +:+ " de " +:+
        nombre_mes +:+ " de " +:+ str_int (year fecha)).

Definition _construir_mensaje
    (fecha_str : string) (hay_contingencia : bool) (fase : option string)
    (puede_circular : bool) (razon : string) : string :=
  let contingencia_texto :=
    if hay_contingencia && opt_str_bool fase
    then "Sí (" +:+ default "" fase +:+ ")" else "No" in
  let circulacion_texto :=
    if puede_circular then "✅ Circula" else "🚫 No circula" in
  "📅 *" +:+ fecha_str +:+ "*" +:+ nl +:+
  "🌫 *Contingencia:* " +:+ contingencia_texto +:+ nl +:+
  "🚗 *Tu auto:* " +:+ circulacion_texto +:+ nl +:+
  "📌 *Motivo:* " +:+ razon.

(** How [main] ends: [sys.exit(1)] after the lines printed, a return
    without a notification, an exception that propagates, or the call of
    [enviar_mensaje] on a message. *)
Inductive excepcion_main : Type :=
  | KeyError
  | Evaluacion (e : excepcion).

Inductive salida_main : Type :=
  | SystemExit (impreso : list string)
  | SinNotificacion
  | Propaga (e : excepcion_main)
  | Envia (mensaje : string).

Section Main.

Variable isspace : ascii -> bool.
Variable requests_get : string -> respuesta_get.
Variable soup_get_text : string -> string.
Variable _RE_FASE_2_search : string -> option Match.
Variable _RE_FASE_1_search : string -> option Match.
Variable date_today : date.
Variable strftime_A : date -> string.

(** [int(s)] for a [str]. *)
Variable py_int : string -> option Z.

Definition cargar_configuracion (env : gmap string string)
    : list string + Config :=
  let errores : list string := [] in
  let variables_requeridas :=
    ["TELEGRAM_BOT_TOKEN"; "TELEGRAM_CHAT_ID"; "PLACA_ULTIMO_DIGITO";
     "HOLOGRAMA"] in
  let errores :=
    fold_left
      (fun errores var =>
         if negb (opt_str_bool (env !! var))
         then (errores ++ ["  • " +:+ var +:+ " no está definida en .env"])%list
         else errores)
      variables_requeridas errores in
  let digito_raw := default "" (env !! "PLACA_ULTIMO_DIGITO") in
  let ultimo_digito : option Z := None in
  let '(ultimo_digito, errores) :=
    if str_bool digito_raw then
      match py_int digito_raw with
      | Some n =>
          (Some n,
           if negb (en_range n 0 10)
           then (errores ++
                 ["  • PLACA_ULTIMO_DIGITO debe ser un número entre 0 y 9"])%list
           else errores)
      | None =>
          (ultimo_digito,
           (errores ++
            ["  • PLACA_ULTIMO_DIGITO debe ser numérico, se recibió: '"
             +:+ digito_raw +:+ "'"])%list)
      end
    else (ultimo_digito, errores) in
  let holograma := default "" (env !! "HOLOGRAMA") in
  let errores :=
    if str_bool holograma
       && negb (bool_decide (holograma ∈ ["00"; "0"; "1"; "2"]))
    then (errores ++
          ["  • HOLOGRAMA debe ser 00, 0, 1 o 2. Se recibió: '"
           +:+ holograma +:+ "'"])%list
    else errores in
  if negb (bool_decide (errores = [])) then
    inl ["❌ Errores de configuración en .env:" +:+ nl +:+
         str_join nl errores;
         nl +:+ "Copia .env.example a .env y completa los valores requeridos."]
  else
    let notificar_solo_no_circula :=
      String.eqb
        (str_lower (default "true" (env !! "NOTIFICAR_SOLO_SI_NO_CIRCULA")))
        "true" in
    inr (mk_Config ultimo_digito holograma notificar_solo_no_circula).

Definition main (env : gmap string string) : salida_main :=
  match cargar_configuracion env with
  | inl impreso => SystemExit impreso
  | inr config =>
      let hoy := date_today in
      match formatear_fecha hoy with
      | None => Propaga KeyError
      | Some fecha_str =>
          if isoweekday hoy =? 7 then SinNotificacion
          else
            let resultado_contingencia :=
              verificar_contingencia isspace requests_get soup_get_text
                _RE_FASE_2_search _RE_FASE_1_search in
            let evaluacion :=
              match config_ultimo_digito config with
              | Some ultimo_digito =>
                  evaluar_circulacion date_today strftime_A
                    ultimo_digito (config_holograma config)
                    (fase_a_nivel (fase resultado_contingencia)) (Some hoy)
              | None =>
                  (* [None] is in no [range]: the digit check fails once
                     the sticker has passed its own *)
                  let* _ :=
                    evaluar_circulacion date_today strftime_A
                      0 (config_holograma config)
                      (fase_a_nivel (fase resultado_contingencia))
                      (Some hoy) in
                  raise (ValueError
                    "Último dígito debe ser entre 0 y 9. Se recibió: None")
              end in
            match evaluacion with
            | inl e => Propaga (Evaluacion e)
            | inr resultado_circulacion =>
                let debe_notificar :=
                  if config_notificar_solo_no_circula config
                  then negb (puede_circular resultado_circulacion)
                  else true in
                if negb debe_notificar then SinNotificacion
                else
                  let mensaje :=
                    _construir_mensaje fecha_str
                      (hay_contingencia resultado_contingencia)
                      (fase resultado_contingencia)
                      (puede_circular resultado_circulacion)
                      (razon resultado_circulacion) in
                  Envia mensaje
            end
      end
  end.

End Main.

(** [int] on the strings of ASCII digits, for concrete evaluations; any
    other text is refused. *)
Definition int_decimal (s : string) : option Z :=
  match NilZero.uint_of_string s with
  | Some u => if str_bool s then Some (Z.of_N (N.of_uint u)) else None
  | None => None
  end.

(** A complete environment: plate ending in 5, sticker "1". *)
Definition env_ejemplo : gmap string string :=
  list_to_map
    [("TELEGRAM_BOT_TOKEN", "123:abc"); ("TELEGRAM_CHAT_ID", "42");
     ("PLACA_ULTIMO_DIGITO", "5"); ("HOLOGRAMA", "1")].

(** ** [whatsapp_service.py] *)

Section Whatsapp.

Variable isspace : ascii -> bool.

Definition _formatear_numero (numero : string) : string :=
  let numero := str_strip isspace numero in
  if negb (String.prefix "whatsapp:" numero)
  then "whatsapp:" +:+ numero
  else numero.

End Whatsapp.

(** Values for concrete evaluations of the services: a page that announces
    Phase 1, a network on which only the second URL answers, a parser that
    returns the page as it is, and the configuration read from
    [env_ejemplo]. *)
Definition pagina_ejemplo : string :=
  "<p>Se activa  Contingencia ambiental Fase 1 en la ZMVM</p>".

Definition red_solo_segunda (html url : string) : respuesta_get :=
  if String.eqb url "https://www.gob.mx/comisionambiental"
  then GetResponse 200 html else GetTimeout.

Definition sin_parser (html : string) : string := html.

Definition config_ejemplo : Config := mk_Config (Some 5) "1" true.

(** * Properties *)

(** ** Dates *)

Lemma isoweekday_range (f : date) : 1 <= isoweekday f <= 7.
Proof.
  unfold isoweekday.
  pose proof (Z.mod_pos_bound (toordinal f) 7 ltac:(lia)) as Hm.
  destruct (Z.eqb_spec (toordinal f mod 7) 0); lia.
Qed.

Lemma isoweekday_cases (f : date) :
  isoweekday f ∈ [1; 2; 3; 4; 5; 6; 7].
Proof.
  pose proof (isoweekday_range f) as Hr.
  rewrite !elem_of_cons, elem_of_nil. lia.
Qed.

(** ** Membership helpers *)

Lemma en_true (x : Z) (l : list Z) : en x l = true <-> x ∈ l.
Proof. unfold en. apply bool_decide_eq_true. Qed.

Lemma en_false (x : Z) (l : list Z) : en x l = false <-> x ∉ l.
Proof. unfold en. apply bool_decide_eq_false. Qed.

Lemma en_range_true (n a b : Z) : en_range n a b = true <-> a <= n < b.
Proof. unfold en_range. rewrite andb_true_iff, Z.leb_le, Z.ltb_lt. tauto. Qed.

Lemma en_range_false (n a b : Z) : en_range n a b = false <-> ~ a <= n < b.
Proof. rewrite <- en_range_true. destruct (en_range n a b); intuition congruence. Qed.

Lemma digito_cases (d : Z) :
  0 <= d <= 9 -> d ∈ [0; 1; 2; 3; 4; 5; 6; 7; 8; 9].
Proof.
  intros Hd.
  rewrite !elem_of_cons, elem_of_nil. lia.
Qed.

(** Splits a hypothesis [x ∈ [a; b; ...]] into one goal per element. *)
Ltac casos_lista H :=
  repeat (apply elem_of_cons in H as [H | H]; [subst |]);
  [.. | apply elem_of_nil in H; contradiction].

(** ** Stickers *)

Lemma Holograma_of_value_Some (v : string) (h : Holograma) :
  Holograma_of_value v = Some h <-> v = Holograma_value h.
Proof.
  split.
  - intros Hf. apply find_some in Hf as [_ Hf].
    apply String.eqb_eq in Hf. congruence.
  - intros ->. destruct h; reflexivity.
Qed.

Lemma Holograma_of_value_None (v : string) :
  Holograma_of_value v = None <-> v ∉ hologramas_validos.
Proof.
  split.
  - intros Hn Hin. unfold hologramas_validos in Hin.
    casos_lista Hin; discriminate Hn.
  - intros Hnot. destruct (Holograma_of_value v) as [h |] eqn:Hv; [| reflexivity].
    apply Holograma_of_value_Some in Hv. subst v.
    exfalso. apply Hnot.
    destruct h; apply (bool_decide_unpack _); vm_compute; exact I.
Qed.

Lemma Holograma_exento (v : string) :
  v ∈ hologramas_exentos ->
  exists h, Holograma_of_value v = Some h
            /\ bool_decide (h ∈ [CERO_CERO; CERO]) = true.
Proof.
  unfold hologramas_exentos. intros Hin.
  casos_lista Hin; eexists; (split; reflexivity).
Qed.

Lemma Holograma_restringido (v : string) :
  v ∈ hologramas_restringidos ->
  exists h, Holograma_of_value v = Some h
            /\ bool_decide (h ∈ [CERO_CERO; CERO]) = false
            /\ bool_decide (h = DOS) = bool_decide (v = "2").
Proof.
  unfold hologramas_restringidos. intros Hin.
  casos_lista Hin; eexists; (split; [reflexivity | split; reflexivity]).
Qed.

Lemma hologramas_validos_split (v : string) :
  v ∈ hologramas_validos <->
  v ∈ hologramas_exentos \/ v ∈ hologramas_restringidos.
Proof.
  unfold hologramas_validos, hologramas_exentos, hologramas_restringidos.
  rewrite !elem_of_cons, elem_of_nil. tauto.
Qed.

(** ** Tables *)

Lemma RESTRICCION_SEMANAL_dom (w : Z) :
  en_dict w RESTRICCION_SEMANAL = en_range w 1 6.
Proof.
  unfold en_dict.
  destruct (en_range w 1 6) eqn:Hr.
  - apply en_range_true in Hr.
    assert (w ∈ [1; 2; 3; 4; 5]) as Hc
      by (rewrite !elem_of_cons, elem_of_nil; lia).
    casos_lista Hc; reflexivity.
  - apply en_range_false in Hr. apply bool_decide_eq_false.
    intros [l Hl]. apply Hr.
    unfold RESTRICCION_SEMANAL in Hl.
    apply elem_of_list_to_map_2 in Hl.
    casos_lista Hl; injection Hl as -> _; lia.
Qed.

Lemma NOMBRES_DIA_total (w : Z) :
  1 <= w <= 7 -> is_Some (NOMBRES_DIA !! w).
Proof.
  intros Hw.
  assert (w ∈ [1; 2; 3; 4; 5; 6; 7]) as Hc
    by (rewrite !elem_of_cons, elem_of_nil; lia).
  casos_lista Hc; eexists; reflexivity.
Qed.

Lemma FASE2_RESTRICCION_fuera (w : Z) :
  ~ 1 <= w <= 5 -> FASE2_RESTRICCION_HOLOGRAMA_0_00 !! w = None.
Proof.
  intros Hw.
  destruct (FASE2_RESTRICCION_HOLOGRAMA_0_00 !! w) as [l |] eqn:Hl; [| reflexivity].
  unfold FASE2_RESTRICCION_HOLOGRAMA_0_00 in Hl.
  apply elem_of_list_to_map_2 in Hl.
  casos_lista Hl; injection Hl as -> _; lia.
Qed.

Lemma sabado_cases (f : date) :
  _digitos_restringidos_sabado f = SABADO_SEMANAS_IMPARES
  \/ _digitos_restringidos_sabado f = SABADO_SEMANAS_PARES.
Proof.
  unfold _digitos_restringidos_sabado.
  destruct (negb (_semana_del_mes f mod 2 =? 0)); [left | right]; reflexivity.
Qed.

Lemma sabado_odd (f : date) :
  _digitos_restringidos_sabado f =
  if Z.odd (_semana_del_mes f) then [5; 6; 7; 8] else [0; 1; 2; 3; 4; 9].
Proof.
  unfold _digitos_restringidos_sabado.
  rewrite Zodd_mod.
  destruct (Z.eqb_spec (_semana_del_mes f mod 2) 0) as [-> | Hne]; [reflexivity |].
  pose proof (Z.mod_pos_bound (_semana_del_mes f) 2 ltac:(lia)) as Hb.
  replace (_semana_del_mes f mod 2) with 1 by lia. reflexivity.
Qed.

Lemma sabado_complementarios (d : Z) :
  0 <= d <= 9 -> en d SABADO_SEMANAS_IMPARES = negb (en d SABADO_SEMANAS_PARES).
Proof.
  intros Hd. apply digito_cases in Hd. casos_lista Hd; reflexivity.
Qed.

Lemma FASE2_RESTRICCION_segun_tabla (w d : Z) :
  0 <= d <= 9 ->
  en d (default [] (FASE2_RESTRICCION_HOLOGRAMA_0_00 !! w)) = true
  <-> fase2_exentos_segun_tabla w d.
Proof.
  intros Hd. unfold fase2_exentos_segun_tabla.
  destruct (decide (1 <= w <= 5)) as [Hw | Hw].
  - assert (w ∈ [1; 2; 3; 4; 5]) as Hc
      by (rewrite !elem_of_cons, elem_of_nil; lia).
    apply digito_cases in Hd.
    casos_lista Hc; casos_lista Hd;
      (split; [first [discriminate | intros _; lia]
              | first [intros _; reflexivity | lia]]).
  - rewrite FASE2_RESTRICCION_fuera by exact Hw.
    split; [discriminate | lia].
Qed.

(** ** The engine *)

Section Propiedades.

Variable date_today : date.
Variable strftime_A : date -> string.

Local Abbreviation evaluar := (evaluar_circulacion date_today strftime_A).
Local Abbreviation fecha_de := (fecha_evaluada date_today).

Lemma evaluar_circulacion_fecha d h n fecha :
  evaluar d h n fecha = evaluar d h n (Some (fecha_de fecha)).
Proof. destruct fecha; reflexivity. Qed.

Lemma evaluar_circulacion_holograma_invalido d h n fecha :
  h ∉ hologramas_validos -> exists e, evaluar d h n fecha = inl e.
Proof.
  intros Hh. apply Holograma_of_value_None in Hh.
  unfold evaluar_circulacion. rewrite Hh. eexists. reflexivity.
Qed.

Lemma evaluar_circulacion_digito_invalido d h n fecha :
  ~ 0 <= d <= 9 -> exists e, evaluar d h n fecha = inl e.
Proof.
  intros Hd.
  assert (en_range d 0 10 = false) as Hr by (apply en_range_false; lia).
  unfold evaluar_circulacion.
  destruct (Holograma_of_value h); [rewrite Hr |]; eexists; reflexivity.
Qed.

(** The exempt branch: the base flag is never set, and the contingency
    flag is the Phase 2 table lookup. *)
Lemma evaluar_circulacion_exento d h n fecha :
  0 <= d <= 9 -> h ∈ hologramas_exentos ->
  exists r,
    evaluar d h n fecha = inr r
    /\ restriccion_normal r = false
    /\ restriccion_contingencia r =
         bool_decide (n = FASE_2)
         && en d (default [] (FASE2_RESTRICCION_HOLOGRAMA_0_00
                                !! isoweekday (fecha_de fecha)))
    /\ puede_circular r = negb (restriccion_contingencia r).
Proof.
  intros Hd Hh.
  destruct (Holograma_exento h Hh) as (e & He & Hb).
  assert (en_range d 0 10 = true) as Hr by (apply en_range_true; lia).
  rewrite evaluar_circulacion_fecha. unfold evaluar_circulacion.
  rewrite He, Hr. cbv beta iota zeta delta [bind ret negb]. rewrite Hb.
  destruct (bool_decide (n = FASE_2)); cbn [andb].
  - destruct (en d _); eexists; repeat split; reflexivity.
  - eexists; repeat split; reflexivity.
Qed.

(** The restricted branch: the flags as the weekly table, the Saturday
    rotation and the contingency level decide them. *)
Lemma evaluar_circulacion_restringido d h n fecha :
  0 <= d <= 9 -> h ∈ hologramas_restringidos ->
  exists r,
    evaluar d h n fecha = inr r
    /\ restriccion_normal r =
         (en_range (isoweekday (fecha_de fecha)) 1 6
          && en d (default [] (RESTRICCION_SEMANAL
                                 !! isoweekday (fecha_de fecha))))
         || ((isoweekday (fecha_de fecha) =? 6) && bool_decide (h = "2")
             && en d (_digitos_restringidos_sabado (fecha_de fecha)))
    /\ restriccion_contingencia r =
         (if bool_decide (n = FASE_1) then restriccion_normal r
          else bool_decide (n = FASE_2)
               && en_range (isoweekday (fecha_de fecha)) 1 6)
    /\ puede_circular r =
         negb (restriccion_normal r || restriccion_contingencia r).
Proof.
  intros Hd Hh.
  destruct (Holograma_restringido h Hh) as (e & He & Hb & Hdos).
  assert (en_range d 0 10 = true) as Hr by (apply en_range_true; lia).
  rewrite evaluar_circulacion_fecha. unfold evaluar_circulacion.
  rewrite He, Hr. cbv beta iota zeta delta [bind ret negb].
  rewrite Hb, Hdos, RESTRICCION_SEMANAL_dom.
  eexists. split; [reflexivity |]. cbn [restriccion_normal
    restriccion_contingencia puede_circular].
  destruct (en_range _ 1 6), (en d (default [] _)), (_ =? 6),
    (bool_decide (h = "2")), (en d (_digitos_restringidos_sabado _)),
    (bool_decide (n = FASE_1)), (bool_decide (n = FASE_2));
    repeat split; reflexivity.
Qed.

Lemma evaluar_circulacion_valido d h n fecha :
  0 <= d <= 9 -> h ∈ hologramas_validos ->
  exists r, evaluar d h n fecha = inr r.
Proof.
  intros Hd Hh. apply hologramas_validos_split in Hh as [Hh | Hh].
  - destruct (evaluar_circulacion_exento d h n fecha Hd Hh) as (r & Hr & _).
    eauto.
  - destruct (evaluar_circulacion_restringido d h n fecha Hd Hh) as (r & Hr & _).
    eauto.
Qed.

Lemma evaluar_circulacion_inr d h n fecha r :
  evaluar d h n fecha = inr r -> 0 <= d <= 9 /\ h ∈ hologramas_validos.
Proof.
  intros Hev. split.
  - destruct (decide (0 <= d <= 9)) as [Hd | Hd]; [exact Hd |].
    destruct (evaluar_circulacion_digito_invalido d h n fecha Hd) as [e He].
    congruence.
  - destruct (decide (h ∈ hologramas_validos)) as [Hh | Hh]; [exact Hh |].
    destruct (evaluar_circulacion_holograma_invalido d h n fecha Hh) as [e He].
    congruence.
Qed.

(** *** Validation *)

(** C2: [evaluar_circulacion] raises a [ValueError] if and only if the last
    digit is outside 0..9 or the sticker is not one of "00", "0", "1", "2";
    for every digit 0..9, every one of the four stickers, every contingency
    level and every date (also the default one) it returns a result. *)
Theorem C2_validacion_y_totalidad
    (d : Z) (h : string) (n : NivelContingencia) (fecha : option date) :
  ((exists msg, evaluar d h n fecha = inl (ValueError msg))
   <-> (~ 0 <= d <= 9 \/ h ∉ hologramas_validos))
  /\ (0 <= d <= 9 -> h ∈ hologramas_validos ->
      exists r, evaluar d h n fecha = inr r).
Proof.
  split; [split |].
  - intros [msg Hev].
    destruct (decide (0 <= d <= 9)) as [Hd | Hd]; [| left; exact Hd].
    destruct (decide (h ∈ hologramas_validos)) as [Hh | Hh]; [| right; exact Hh].
    destruct (evaluar_circulacion_valido d h n fecha Hd Hh) as [r Hr].
    congruence.
  - intros [Hd | Hh].
    + destruct (evaluar_circulacion_digito_invalido d h n fecha Hd) as [[msg] He].
      eauto.
    + destruct (evaluar_circulacion_holograma_invalido d h n fecha Hh) as [[msg] He].
      eauto.
  - apply evaluar_circulacion_valido.
Qed.

(** *** Weekday rules *)

(** C3: on a Sunday (ISO weekday 7) every valid input may drive, whatever
    the digit, the sticker and the contingency level. *)
Theorem C3_domingo_circula
    (d : Z) (h : string) (n : NivelContingencia) (fecha : option date) :
  0 <= d <= 9 -> h ∈ hologramas_validos ->
  isoweekday (fecha_de fecha) = 7 ->
  exists r, evaluar d h n fecha = inr r /\ puede_circular r = true.
Proof.
  intros Hd Hh Hw. apply hologramas_validos_split in Hh as [Hh | Hh].
  - destruct (evaluar_circulacion_exento d h n fecha Hd Hh)
      as (r & Hr & _ & Hc & Hp).
    exists r. split; [exact Hr |].
    rewrite Hp, Hc, Hw, FASE2_RESTRICCION_fuera by lia.
    cbn. rewrite andb_false_r. reflexivity.
  - destruct (evaluar_circulacion_restringido d h n fecha Hd Hh)
      as (r & Hr & Hn & Hc & Hp).
    exists r. split; [exact Hr |].
    rewrite Hw in Hn, Hc. cbn in Hn, Hc.
    rewrite Hp, Hc, Hn. rewrite andb_false_r. destruct (bool_decide _); reflexivity.
Qed.

(** C4: for stickers "1" and "2" under Phase 1 the contingency flag is set
    exactly when the base flag is set. *)
Theorem C4_fase1_refuerza
    (d : Z) (h : string) (fecha : option date) :
  0 <= d <= 9 -> h ∈ hologramas_restringidos ->
  exists r, evaluar d h FASE_1 fecha = inr r
            /\ (restriccion_contingencia r = true
                <-> restriccion_normal r = true).
Proof.
  intros Hd Hh.
  destruct (evaluar_circulacion_restringido d h FASE_1 fecha Hd Hh)
    as (r & Hr & _ & Hc & _).
  exists r. split; [exact Hr |].
  rewrite Hc. reflexivity.
Qed.

(** C5: for stickers "1" and "2" under Phase 2, Monday to Friday, the
    vehicle may not drive, whatever its last digit. *)
Theorem C5_fase2_lunes_a_viernes
    (d : Z) (h : string) (fecha : option date) :
  0 <= d <= 9 -> h ∈ hologramas_restringidos ->
  1 <= isoweekday (fecha_de fecha) <= 5 ->
  exists r, evaluar d h FASE_2 fecha = inr r /\ puede_circular r = false.
Proof.
  intros Hd Hh Hw.
  destruct (evaluar_circulacion_restringido d h FASE_2 fecha Hd Hh)
    as (r & Hr & _ & Hc & Hp).
  exists r. split; [exact Hr |].
  assert (en_range (isoweekday (fecha_de fecha)) 1 6 = true) as Hrange
    by (apply en_range_true; lia).
  rewrite Hrange in Hc. cbn in Hc.
  rewrite Hp, Hc. apply negb_false_iff, orb_true_r.
Qed.

(** C6: exempt stickers ("00", "0") with no contingency or Phase 1 may drive,
    for every digit and every weekday. *)
Theorem C6_exentos_sin_fase2
    (d : Z) (h : string) (n : NivelContingencia) (fecha : option date) :
  0 <= d <= 9 -> h ∈ hologramas_exentos ->
  n = NINGUNA \/ n = FASE_1 ->
  exists r, evaluar d h n fecha = inr r /\ puede_circular r = true.
Proof.
  intros Hd Hh Hn.
  destruct (evaluar_circulacion_exento d h n fecha Hd Hh)
    as (r & Hr & _ & Hc & Hp).
  exists r. split; [exact Hr |].
  rewrite Hp, Hc. destruct Hn as [-> | ->]; reflexivity.
Qed.

(** C7: an exempt sticker under Phase 2 is stopped, with the contingency
    flag set, exactly on Monday to Friday when its digit is in the day's
    entry of the Phase 2 table (Monday, Wednesday, Friday: 0..4; Tuesday,
    Thursday: 5..9); on Saturday and Sunday it is never restricted. *)
Theorem C7_exentos_en_fase2
    (d : Z) (h : string) (fecha : option date) :
  0 <= d <= 9 -> h ∈ hologramas_exentos ->
  exists r,
    evaluar d h FASE_2 fecha = inr r
    /\ ((puede_circular r = false /\ restriccion_contingencia r = true)
        <-> fase2_exentos_segun_tabla (isoweekday (fecha_de fecha)) d)
    /\ (isoweekday (fecha_de fecha) = 6 \/ isoweekday (fecha_de fecha) = 7 ->
        puede_circular r = true /\ restriccion_contingencia r = false).
Proof.
  intros Hd Hh.
  destruct (evaluar_circulacion_exento d h FASE_2 fecha Hd Hh)
    as (r & Hr & _ & Hc & Hp).
  exists r. split; [exact Hr |].
  cbn in Hc. rewrite Hp, Hc.
  pose proof (FASE2_RESTRICCION_segun_tabla (isoweekday (fecha_de fecha)) d Hd)
    as Htabla.
  split.
  - rewrite <- Htabla, negb_false_iff. tauto.
  - intros Hw. rewrite FASE2_RESTRICCION_fuera by lia. split; reflexivity.
Qed.

(** *** Saturdays *)

(** C8: the Saturday digits depend only on the parity of the week of the
    month, [(day - 1) div 7 + 1]: odd weeks restrict 5, 6, 7, 8, even weeks
    0, 1, 2, 3, 4, 9; the two sets are complementary within 0..9; so on two
    Saturdays of one month whose weeks differ in parity, a sticker "2"
    vehicle is restricted on exactly one of them. *)
Theorem C8_rotacion_sabado :
  (forall f, _semana_del_mes f = (day f - 1) / 7 + 1)
  /\ (forall f, _digitos_restringidos_sabado f =
                if Z.odd (_semana_del_mes f)
                then [5; 6; 7; 8] else [0; 1; 2; 3; 4; 9])
  /\ (forall d, 0 <= d <= 9 ->
                (d ∈ [5; 6; 7; 8] <-> d ∉ [0; 1; 2; 3; 4; 9]))
  /\ (forall d n f1 f2,
        0 <= d <= 9 ->
        year f1 = year f2 -> month f1 = month f2 ->
        isoweekday f1 = 6 -> isoweekday f2 = 6 ->
        Z.odd (_semana_del_mes f1) <> Z.odd (_semana_del_mes f2) ->
        exists r1 r2,
          evaluar d "2" n (Some f1) = inr r1
          /\ evaluar d "2" n (Some f2) = inr r2
          /\ restriccion_normal r1 = negb (restriccion_normal r2)
          /\ puede_circular r1 = negb (puede_circular r2)).
Proof.
  split; [reflexivity |]. split; [exact sabado_odd |]. split.
  - intros d Hd. rewrite <- en_true, <- en_false.
    change (en d SABADO_SEMANAS_IMPARES = true
            <-> en d SABADO_SEMANAS_PARES = false).
    rewrite (sabado_complementarios d Hd), negb_true_iff. reflexivity.
  - intros d n f1 f2 Hd _ _ Hw1 Hw2 Hpar.
    assert ("2" ∈ hologramas_restringidos) as Hh
      by (apply (bool_decide_unpack _); vm_compute; exact I).
    destruct (evaluar_circulacion_restringido d "2" n (Some f1) Hd Hh)
      as (r1 & Hr1 & Hn1 & Hc1 & Hp1).
    destruct (evaluar_circulacion_restringido d "2" n (Some f2) Hd Hh)
      as (r2 & Hr2 & Hn2 & Hc2 & Hp2).
    exists r1, r2. split; [exact Hr1 |]. split; [exact Hr2 |].
    cbn [fecha_evaluada default from_option id] in *.
    rewrite Hw1 in Hn1, Hc1. rewrite Hw2 in Hn2, Hc2.
    cbn in Hn1, Hn2, Hc1, Hc2.
    rewrite andb_false_r in Hc1, Hc2.
    rewrite (bool_decide_eq_true_2 _ (eq_refl "2")) in Hn1, Hn2.
    cbn [andb] in Hn1, Hn2.
    assert (restriccion_normal r1 = negb (restriccion_normal r2)) as Hneg.
    { rewrite Hn1, Hn2, !sabado_odd.
      pose proof (sabado_complementarios d Hd) as Hcomp.
      unfold SABADO_SEMANAS_IMPARES, SABADO_SEMANAS_PARES in Hcomp.
      destruct (Z.odd (_semana_del_mes f1)), (Z.odd (_semana_del_mes f2));
        try congruence; rewrite Hcomp, ?negb_involutive; reflexivity. }
    split; [exact Hneg |].
    rewrite Hp1, Hp2, Hc1, Hc2, Hneg.
    destruct (bool_decide (n = FASE_1)), (restriccion_normal r2); reflexivity.
Qed.

(** C9: a sticker "1" vehicle on a Saturday may drive and neither flag is
    set, for every digit and every contingency level. *)
Theorem C9_holograma_1_sabado
    (d : Z) (n : NivelContingencia) (fecha : option date) :
  0 <= d <= 9 -> isoweekday (fecha_de fecha) = 6 ->
  exists r,
    evaluar d "1" n fecha = inr r
    /\ puede_circular r = true
    /\ restriccion_normal r = false
    /\ restriccion_contingencia r = false.
Proof.
  intros Hd Hw.
  assert ("1" ∈ hologramas_restringidos) as Hh
    by (apply (bool_decide_unpack _); vm_compute; exact I).
  destruct (evaluar_circulacion_restringido d "1" n fecha Hd Hh)
    as (r & Hr & Hn & Hc & Hp).
  exists r. split; [exact Hr |].
  rewrite Hw in Hn, Hc. cbn in Hn, Hc.
  rewrite (bool_decide_eq_false_2 ("1" = "2")) in Hn by discriminate.
  cbn [andb] in Hn.
  rewrite Hn, andb_false_r in Hc.
  assert (restriccion_contingencia r = false) as Hc'
    by (rewrite Hc; destruct (bool_decide (n = FASE_1)); reflexivity).
  rewrite Hn, Hc' in Hp.
  repeat split; assumption.
Qed.

(** *** Consistency of the record *)

(** C10: every result the engine returns, on each of its return paths, has
    [puede_circular = not (restriccion_normal or restriccion_contingencia)],
    and for the exempt stickers "00" and "0" [restriccion_normal] is false,
    also when Phase 2 stops the vehicle. *)
Theorem C10_banderas_coherentes
    (d : Z) (h : string) (n : NivelContingencia) (fecha : option date)
    (r : ResultadoCirculacion) :
  evaluar d h n fecha = inr r ->
  puede_circular r = negb (restriccion_normal r || restriccion_contingencia r)
  /\ (h ∈ hologramas_exentos -> restriccion_normal r = false).
Proof.
  intros Hev.
  destruct (evaluar_circulacion_inr d h n fecha r Hev) as [Hd Hh].
  apply hologramas_validos_split in Hh as [Hh | Hh].
  - destruct (evaluar_circulacion_exento d h n fecha Hd Hh)
      as (r' & Hr' & Hn & _ & Hp).
    assert (r' = r) as -> by congruence.
    rewrite Hp, Hn. split; [reflexivity | intros _; reflexivity].
  - destruct (evaluar_circulacion_restringido d h n fecha Hd Hh)
      as (r' & Hr' & _ & _ & Hp).
    assert (r' = r) as -> by congruence.
    split; [exact Hp |].
    intros Hex. exfalso.
    unfold hologramas_exentos, hologramas_restringidos in *.
    casos_lista Hh; casos_lista Hex; discriminate.
Qed.

(** *** The reason text *)

(** The result depends on the date only through its weekday and the
    Saturday digits of its week; neither today's date nor the locale's
    weekday names reach it when a date is passed. *)
Lemma evaluar_circulacion_segun_dia
    (hoy1 hoy2 : date) (loc1 loc2 : date -> string)
    (d : Z) (h : string) (n : NivelContingencia) (f1 f2 : date) :
  isoweekday f1 = isoweekday f2 ->
  _digitos_restringidos_sabado f1 = _digitos_restringidos_sabado f2 ->
  evaluar_circulacion hoy1 loc1 d h n (Some f1)
  = evaluar_circulacion hoy2 loc2 d h n (Some f2).
Proof.
  intros Hw Hs. unfold evaluar_circulacion.
  destruct (Holograma_of_value h) as [e |]; [| reflexivity].
  destruct (en_range d 0 10); [| reflexivity].
  cbv beta iota zeta delta [bind ret negb].
  rewrite Hw, Hs.
  destruct (NOMBRES_DIA_total (isoweekday f2) (isoweekday_range f2))
    as [nombre Hnombre].
  rewrite Hnombre. reflexivity.
Qed.

Lemma fecha_representativa (f : date) :
  exists f0, In f0 fechas_representativas
             /\ isoweekday f = isoweekday f0
             /\ _digitos_restringidos_sabado f = _digitos_restringidos_sabado f0.
Proof.
  pose proof (isoweekday_cases f) as Hw.
  destruct (sabado_cases f) as [Hs | Hs]; rewrite Hs;
    casos_lista Hw; rewrite Hw.
  1-7: match goal with
       | |- context [?w = isoweekday _] =>
           exists (mk_date 2024 1 w)
       end; (split; [vm_compute; tauto | split; reflexivity]).
  all: match goal with
       | |- context [?w = isoweekday _] =>
           exists (mk_date 2024 1 (w + 7))
       end; (split; [vm_compute; tauto | split; reflexivity]).
Qed.

(** Every digit, sticker and level on every representative date. *)
Lemma cita_causa_principal_tabla :
  forallb (fun f0 =>
    forallb (fun d =>
      forallb (fun h =>
        forallb (fun n => cita_causa_principal_en d h n f0)
                [NINGUNA; FASE_1; FASE_2])
              hologramas_validos)
            [0; 1; 2; 3; 4; 5; 6; 7; 8; 9])
          fechas_representativas = true.
Proof. vm_compute. reflexivity. Qed.

(** C1 (amended): for every valid input the reason cites one cause. When the
    vehicle may not drive it names the regular program whenever
    [restriccion_normal] is set, and names the contingency with its level
    whenever [restriccion_contingencia] is set and [restriccion_normal] is
    not; when both flags are set the contingency is not named. When the
    vehicle may drive the reason is a no-restriction message. *)
Theorem C1_razon_cita_causa_principal
    (d : Z) (h : string) (n : NivelContingencia) (fecha : option date) :
  0 <= d <= 9 -> h ∈ hologramas_validos ->
  exists r, evaluar d h n fecha = inr r /\ razon_cita_causa_principal n r.
Proof.
  intros Hd Hh. rewrite evaluar_circulacion_fecha.
  destruct (fecha_representativa (fecha_de fecha)) as (f0 & Hf0 & Hw & Hs).
  rewrite (evaluar_circulacion_segun_dia date_today hoy_ejemplo
             strftime_A strftime_A_C d h n _ f0 Hw Hs).
  pose proof cita_causa_principal_tabla as Htabla.
  rewrite forallb_forall in Htabla. specialize (Htabla f0 Hf0).
  rewrite forallb_forall in Htabla.
  specialize (Htabla d (proj1 (list_elem_of_In _ _) (digito_cases d Hd))).
  rewrite forallb_forall in Htabla.
  specialize (Htabla h (proj1 (list_elem_of_In _ _) Hh)).
  rewrite forallb_forall in Htabla.
  assert (In n [NINGUNA; FASE_1; FASE_2]) as Hn
    by (destruct n; simpl; tauto).
  specialize (Htabla n Hn).
  unfold cita_causa_principal_en in Htabla.
  destruct (evaluar_circulacion hoy_ejemplo strftime_A_C d h n (Some f0))
    as [e | r]; [discriminate |].
  exists r. split; [reflexivity |].
  apply bool_decide_eq_true in Htabla. exact Htabla.
Qed.

End Propiedades.

(** ** Concrete evaluations *)

Local Abbreviation evaluar_ejemplo :=
  (evaluar_circulacion hoy_ejemplo strftime_A_C).

(** Proves a membership in a literal list by deciding it. *)
Ltac en_lista := apply (bool_decide_unpack _); vm_compute; exact I.

(** The scenarios of the specification: January 2024 starts on a Monday, so
    the 1st is a Monday, the 2nd a Tuesday, the 6th the Saturday of week 1
    and the 13th the Saturday of week 2. *)
Example escenarios_de_la_especificacion :
  veredicto (evaluar_ejemplo 5 "1" NINGUNA (Some (mk_date 2024 1 1))) = Some false
  /\ veredicto (evaluar_ejemplo 5 "1" NINGUNA (Some (mk_date 2024 1 2))) = Some true
  /\ veredicto (evaluar_ejemplo 0 "00" FASE_2 (Some (mk_date 2024 1 1))) = Some false
  /\ veredicto (evaluar_ejemplo 9 "0" FASE_1 (Some (mk_date 2024 1 3))) = Some true
  /\ veredicto (evaluar_ejemplo 7 "2" NINGUNA (Some (mk_date 2024 1 6))) = Some false
  /\ veredicto (evaluar_ejemplo 7 "2" NINGUNA (Some (mk_date 2024 1 13))) = Some true.
Proof. repeat split; vm_compute; reflexivity. Qed.

(** C1 as stated fails: digit 5 with sticker "1" under Phase 2 on Monday
    1 January 2024 is stopped with both flags set, and the reason names the
    regular program only. *)
Lemma C1_contraejemplo :
  evaluar_ejemplo 5 "1" FASE_2 (Some (mk_date 2024 1 1))
  = inr {| puede_circular := false;
           razon := "Placa terminada en 5 con holograma 1 NO CIRCULA el lunes por: programa Hoy No Circula regular.";
           restriccion_normal := true;
           restriccion_contingencia := true;
           nivel_contingencia := FASE_2;
           dia := "lunes";
           holograma := "1";
           ultimo_digito := 5 |}
  /\ ~ (exists r,
          evaluar_ejemplo 5 "1" FASE_2 (Some (mk_date 2024 1 1)) = inr r
          /\ razon_cita_toda_causa FASE_2 r).
Proof.
  split; [vm_compute; reflexivity |].
  intros (r & Hr & Hcita).
  vm_compute in Hr. injection Hr as <-.
  destruct Hcita as [Hno _].
  destruct (Hno eq_refl) as [_ Hcont].
  specialize (Hcont eq_refl). vm_compute in Hcont. discriminate.
Qed.

Lemma C1_razon_cita_causa_principal_witness :
  0 <= 5 <= 9 /\ "1" ∈ hologramas_validos
  /\ exists r,
       evaluar_ejemplo 5 "1" FASE_2 (Some (mk_date 2024 1 1)) = inr r
       /\ razon_cita_causa_principal FASE_2 r.
Proof.
  assert (0 <= 5 <= 9) as Hd by lia.
  assert ("1" ∈ hologramas_validos) as Hh by en_lista.
  split; [exact Hd |]. split; [exact Hh |].
  exact (C1_razon_cita_causa_principal hoy_ejemplo strftime_A_C
           5 "1" FASE_2 (Some (mk_date 2024 1 1)) Hd Hh).
Defined.

Lemma C2_validacion_y_totalidad_witness :
  ((exists msg, evaluar_ejemplo 17 "1" NINGUNA None = inl (ValueError msg))
   <-> (~ 0 <= 17 <= 9 \/ "1" ∉ hologramas_validos))
  /\ (0 <= 17 <= 9 -> "1" ∈ hologramas_validos ->
      exists r, evaluar_ejemplo 17 "1" NINGUNA None = inr r).
Proof.
  exact (C2_validacion_y_totalidad hoy_ejemplo strftime_A_C 17 "1" NINGUNA None).
Defined.

Lemma C3_domingo_circula_witness :
  0 <= 3 <= 9 /\ "2" ∈ hologramas_validos
  /\ isoweekday (fecha_evaluada hoy_ejemplo (Some (mk_date 2024 1 7))) = 7
  /\ exists r,
       evaluar_ejemplo 3 "2" FASE_2 (Some (mk_date 2024 1 7)) = inr r
       /\ puede_circular r = true.
Proof.
  assert (0 <= 3 <= 9) as Hd by lia.
  assert ("2" ∈ hologramas_validos) as Hh by en_lista.
  assert (isoweekday (fecha_evaluada hoy_ejemplo (Some (mk_date 2024 1 7))) = 7)
    as Hw by reflexivity.
  split; [exact Hd |]. split; [exact Hh |]. split; [exact Hw |].
  exact (C3_domingo_circula hoy_ejemplo strftime_A_C
           3 "2" FASE_2 (Some (mk_date 2024 1 7)) Hd Hh Hw).
Defined.

Lemma C4_fase1_refuerza_witness :
  0 <= 5 <= 9 /\ "1" ∈ hologramas_restringidos
  /\ exists r,
       evaluar_ejemplo 5 "1" FASE_1 None = inr r
       /\ (restriccion_contingencia r = true <-> restriccion_normal r = true).
Proof.
  assert (0 <= 5 <= 9) as Hd by lia.
  assert ("1" ∈ hologramas_restringidos) as Hh by en_lista.
  split; [exact Hd |]. split; [exact Hh |].
  exact (C4_fase1_refuerza hoy_ejemplo strftime_A_C 5 "1" None Hd Hh).
Defined.

Lemma C5_fase2_lunes_a_viernes_witness :
  0 <= 1 <= 9 /\ "2" ∈ hologramas_restringidos
  /\ 1 <= isoweekday (fecha_evaluada hoy_ejemplo (Some (mk_date 2024 1 3))) <= 5
  /\ exists r,
       evaluar_ejemplo 1 "2" FASE_2 (Some (mk_date 2024 1 3)) = inr r
       /\ puede_circular r = false.
Proof.
  assert (0 <= 1 <= 9) as Hd by lia.
  assert ("2" ∈ hologramas_restringidos) as Hh by en_lista.
  assert (1 <= isoweekday (fecha_evaluada hoy_ejemplo (Some (mk_date 2024 1 3))) <= 5)
    as Hw by (vm_compute; split; discriminate).
  split; [exact Hd |]. split; [exact Hh |]. split; [exact Hw |].
  exact (C5_fase2_lunes_a_viernes hoy_ejemplo strftime_A_C
           1 "2" (Some (mk_date 2024 1 3)) Hd Hh Hw).
Defined.

Lemma C6_exentos_sin_fase2_witness :
  0 <= 9 <= 9 /\ "0" ∈ hologramas_exentos
  /\ (FASE_1 = NINGUNA \/ FASE_1 = FASE_1)
  /\ exists r,
       evaluar_ejemplo 9 "0" FASE_1 None = inr r /\ puede_circular r = true.
Proof.
  assert (0 <= 9 <= 9) as Hd by lia.
  assert ("0" ∈ hologramas_exentos) as Hh by en_lista.
  assert (FASE_1 = NINGUNA \/ FASE_1 = FASE_1) as Hn by (right; reflexivity).
  split; [exact Hd |]. split; [exact Hh |]. split; [exact Hn |].
  exact (C6_exentos_sin_fase2 hoy_ejemplo strftime_A_C 9 "0" FASE_1 None Hd Hh Hn).
Defined.

Lemma C7_exentos_en_fase2_witness :
  0 <= 0 <= 9 /\ "00" ∈ hologramas_exentos
  /\ exists r,
       evaluar_ejemplo 0 "00" FASE_2 None = inr r
       /\ ((puede_circular r = false /\ restriccion_contingencia r = true)
           <-> fase2_exentos_segun_tabla
                 (isoweekday (fecha_evaluada hoy_ejemplo None)) 0)
       /\ (isoweekday (fecha_evaluada hoy_ejemplo None) = 6
           \/ isoweekday (fecha_evaluada hoy_ejemplo None) = 7 ->
           puede_circular r = true /\ restriccion_contingencia r = false).
Proof.
  assert (0 <= 0 <= 9) as Hd by lia.
  assert ("00" ∈ hologramas_exentos) as Hh by en_lista.
  split; [exact Hd |]. split; [exact Hh |].
  exact (C7_exentos_en_fase2 hoy_ejemplo strftime_A_C 0 "00" None Hd Hh).
Defined.

Lemma C8_rotacion_sabado_witness :
  0 <= 7 <= 9
  /\ year (mk_date 2024 1 6) = year (mk_date 2024 1 13)
  /\ month (mk_date 2024 1 6) = month (mk_date 2024 1 13)
  /\ isoweekday (mk_date 2024 1 6) = 6
  /\ isoweekday (mk_date 2024 1 13) = 6
  /\ Z.odd (_semana_del_mes (mk_date 2024 1 6))
     <> Z.odd (_semana_del_mes (mk_date 2024 1 13))
  /\ exists r1 r2,
       evaluar_ejemplo 7 "2" NINGUNA (Some (mk_date 2024 1 6)) = inr r1
       /\ evaluar_ejemplo 7 "2" NINGUNA (Some (mk_date 2024 1 13)) = inr r2
       /\ restriccion_normal r1 = negb (restriccion_normal r2)
       /\ puede_circular r1 = negb (puede_circular r2).
Proof.
  assert (0 <= 7 <= 9) as Hd by lia.
  assert (Z.odd (_semana_del_mes (mk_date 2024 1 6))
          <> Z.odd (_semana_del_mes (mk_date 2024 1 13))) as Hpar
    by (vm_compute; discriminate).
  repeat (split; [first [exact Hd | exact Hpar | reflexivity] |]).
  exact (proj2 (proj2 (proj2
           (C8_rotacion_sabado hoy_ejemplo strftime_A_C)))
           7 NINGUNA (mk_date 2024 1 6) (mk_date 2024 1 13)
           Hd eq_refl eq_refl eq_refl eq_refl Hpar).
Defined.

Lemma C9_holograma_1_sabado_witness :
  0 <= 6 <= 9
  /\ isoweekday (fecha_evaluada hoy_ejemplo (Some (mk_date 2024 1 6))) = 6
  /\ exists r,
       evaluar_ejemplo 6 "1" FASE_2 (Some (mk_date 2024 1 6)) = inr r
       /\ puede_circular r = true
       /\ restriccion_normal r = false
       /\ restriccion_contingencia r = false.
Proof.
  assert (0 <= 6 <= 9) as Hd by lia.
  assert (isoweekday (fecha_evaluada hoy_ejemplo (Some (mk_date 2024 1 6))) = 6)
    as Hw by reflexivity.
  split; [exact Hd |]. split; [exact Hw |].
  exact (C9_holograma_1_sabado hoy_ejemplo strftime_A_C
           6 FASE_2 (Some (mk_date 2024 1 6)) Hd Hw).
Defined.

Lemma C10_banderas_coherentes_witness :
  let r := {| puede_circular := false;
              razon := "Holograma 00: normalmente exento, pero en CONTINGENCIA FASE 2 el lunes no circulan placas terminadas en 0.";
              restriccion_normal := false;
              restriccion_contingencia := true;
              nivel_contingencia := FASE_2;
              dia := "lunes";
              holograma := "00";
              ultimo_digito := 0 |} in
  evaluar_ejemplo 0 "00" FASE_2 None = inr r
  /\ puede_circular r = negb (restriccion_normal r || restriccion_contingencia r)
  /\ ("00" ∈ hologramas_exentos -> restriccion_normal r = false).
Proof.
  intros r.
  assert (evaluar_ejemplo 0 "00" FASE_2 None = inr r) as Hev
    by (vm_compute; reflexivity).
  split; [exact Hev |].
  exact (C10_banderas_coherentes hoy_ejemplo strftime_A_C
           0 "00" FASE_2 None r Hev).
Defined.

(** * Further properties of the engine *)

Lemma date_valida_day (f : date) :
  date_valida f = true -> 1 <= day f <= 31.
Proof.
  unfold date_valida. rewrite !andb_true_iff, !Z.leb_le.
  intros (((((_ & _) & Hm1) & Hm2) & Hd1) & Hd2).
  assert (month f ∈ [1; 2; 3; 4; 5; 6; 7; 8; 9; 10; 11; 12]) as Hc
    by (rewrite !elem_of_cons, elem_of_nil; lia).
  assert (_days_in_month (year f) (month f) <= 31) as Hdim.
  { unfold _days_in_month.
    destruct ((month f =? 2) && _is_leap (year f)); [lia |].
    casos_lista Hc; rewrite Hc;
      match goal with
      | |- ?x <= 31 => let v := eval vm_compute in x in change (v <= 31)
      end; lia. }
  lia.
Qed.

Section MasPropiedades.

Variable date_today : date.
Variable strftime_A : date -> string.

Local Abbreviation evaluar := (evaluar_circulacion date_today strftime_A).
Local Abbreviation fecha_de := (fecha_evaluada date_today).


Lemma evaluar_circulacion_campos
    (d : Z) (h : string) (n : NivelContingencia) (fecha : option date)
    (r : ResultadoCirculacion) :
  evaluar d h n fecha = inr r ->
  ultimo_digito r = d /\ holograma r = h /\ nivel_contingencia r = n
  /\ NOMBRES_DIA !! isoweekday (fecha_de fecha) = Some (dia r).
Proof.
  rewrite evaluar_circulacion_fecha. unfold evaluar_circulacion.
  destruct (Holograma_of_value h) as [e |]; [| discriminate].
  destruct (en_range d 0 10); [| discriminate].
  cbv beta iota zeta delta [bind ret negb].
  destruct (NOMBRES_DIA_total _ (isoweekday_range (fecha_de fecha)))
    as [nombre Hnombre].
  rewrite Hnombre. cbn [default from_option id].
  destruct (bool_decide (e ∈ [CERO_CERO; CERO])).
  - destruct (bool_decide (n = FASE_2)); [destruct (en d _) |];
      intros [= <-]; repeat split; reflexivity.
  - intros [= <-]. repeat split; reflexivity.
Qed.

(** X2: a returned record repeats the digit, the sticker and the level it
    was called with, and its [dia] is the Spanish name that [NOMBRES_DIA]
    gives to the weekday of the evaluated date. *)
Theorem X2_campos_del_resultado
    (d : Z) (h : string) (n : NivelContingencia) (fecha : option date)
    (r : ResultadoCirculacion) :
  evaluar d h n fecha = inr r ->
  ultimo_digito r = d /\ holograma r = h /\ nivel_contingencia r = n
  /\ NOMBRES_DIA !! isoweekday (fecha_de fecha) = Some (dia r).
Proof. apply evaluar_circulacion_campos. Qed.

(** X3: the locale's weekday names never reach the result, today's date is
    read only when no date is passed, and a call without a date is the
    evaluation of today's date. *)
Theorem X3_independiente_del_entorno
    (hoy' : date) (loc' : date -> string)
    (d : Z) (h : string) (n : NivelContingencia) (f : date) :
  evaluar d h n (Some f) = evaluar_circulacion hoy' loc' d h n (Some f)
  /\ evaluar d h n None = evaluar_circulacion hoy' loc' d h n (Some date_today).
Proof.
  split.
  - apply evaluar_circulacion_segun_dia; reflexivity.
  - rewrite evaluar_circulacion_fecha.
    apply evaluar_circulacion_segun_dia; reflexivity.
Qed.

(** Decides the comparisons of two given levels in the whole goal. *)
Ltac decide_niveles :=
  change (bool_decide (NINGUNA = FASE_1)) with false in *;
  change (bool_decide (NINGUNA = FASE_2)) with false in *;
  change (bool_decide (FASE_1 = FASE_1)) with true in *;
  change (bool_decide (FASE_1 = FASE_2)) with false in *;
  change (bool_decide (FASE_2 = FASE_1)) with false in *;
  change (bool_decide (FASE_2 = FASE_2)) with true in *;
  cbn [andb orb negb] in *.

(** The two groups of stickers are disjoint. *)
Lemma exento_no_restringido (h : string) :
  h ∈ hologramas_exentos -> h ∈ hologramas_restringidos -> False.
Proof.
  unfold hologramas_exentos, hologramas_restringidos. intros He Hx.
  casos_lista He; casos_lista Hx; discriminate.
Qed.

(** The flags and the verdict of a valid call, for either group of
    stickers. *)
Lemma evaluar_circulacion_banderas d h n fecha :
  0 <= d <= 9 -> h ∈ hologramas_validos ->
  exists r,
    evaluar d h n fecha = inr r
    /\ puede_circular r
       = negb (restriccion_normal r || restriccion_contingencia r)
    /\ ((h ∈ hologramas_exentos
         /\ restriccion_normal r = false
         /\ restriccion_contingencia r =
              bool_decide (n = FASE_2)
              && en d (default [] (FASE2_RESTRICCION_HOLOGRAMA_0_00
                                     !! isoweekday (fecha_de fecha))))
        \/ (h ∈ hologramas_restringidos
            /\ restriccion_normal r =
                 (en_range (isoweekday (fecha_de fecha)) 1 6
                  && en d (default [] (RESTRICCION_SEMANAL
                                         !! isoweekday (fecha_de fecha))))
                 || ((isoweekday (fecha_de fecha) =? 6)
                     && bool_decide (h = "2")
                     && en d (_digitos_restringidos_sabado (fecha_de fecha)))
            /\ restriccion_contingencia r =
                 (if bool_decide (n = FASE_1) then restriccion_normal r
                  else bool_decide (n = FASE_2)
                       && en_range (isoweekday (fecha_de fecha)) 1 6))).
Proof.
  intros Hd Hh. apply hologramas_validos_split in Hh as [Hh | Hh].
  - destruct (evaluar_circulacion_exento date_today strftime_A d h n fecha Hd Hh)
      as (r & Hr & Hn & Hc & Hp).
    exists r. split; [exact Hr |]. split; [rewrite Hp, Hn; reflexivity |].
    left. auto.
  - destruct (evaluar_circulacion_restringido date_today strftime_A d h n fecha Hd Hh)
      as (r & Hr & Hn & Hc & Hp).
    exists r. split; [exact Hr |]. split; [exact Hp |].
    right. auto.
Qed.

(** X4: Phase 1 never changes the verdict: for every valid input the
    vehicle may drive under Phase 1 exactly when it may with no contingency,
    and the base flag is the same. *)
Theorem X4_fase1_mismo_veredicto
    (d : Z) (h : string) (fecha : option date) :
  0 <= d <= 9 -> h ∈ hologramas_validos ->
  exists r0 r1,
    evaluar d h NINGUNA fecha = inr r0
    /\ evaluar d h FASE_1 fecha = inr r1
    /\ puede_circular r1 = puede_circular r0
    /\ restriccion_normal r1 = restriccion_normal r0.
Proof.
  intros Hd Hh.
  destruct (evaluar_circulacion_banderas d h NINGUNA fecha Hd Hh)
    as (r0 & Hr0 & Hp0 & Hb0).
  destruct (evaluar_circulacion_banderas d h FASE_1 fecha Hd Hh)
    as (r1 & Hr1 & Hp1 & Hb1).
  exists r0, r1. split; [exact Hr0 |]. split; [exact Hr1 |].
  destruct Hb0 as [(He0 & Hn0 & Hc0) | (Hx0 & Hn0 & Hc0)],
           Hb1 as [(He1 & Hn1 & Hc1) | (Hx1 & Hn1 & Hc1)];
    try (exfalso; eauto using exento_no_restringido; fail);
    decide_niveles.
  - rewrite Hp0, Hp1, Hn0, Hn1, Hc0, Hc1. split; reflexivity.
  - assert (restriccion_normal r1 = restriccion_normal r0) as Hn
      by congruence.
    rewrite Hp0, Hp1, Hc0, Hc1, Hn.
    split; [destruct (restriccion_normal r0) |]; reflexivity.
Qed.

(** X5: a contingency only takes permission away: whoever may drive under
    Phase 2 may drive with no contingency, and the base flag does not depend
    on the level. *)
Theorem X5_fase2_solo_restringe
    (d : Z) (h : string) (fecha : option date) :
  0 <= d <= 9 -> h ∈ hologramas_validos ->
  exists r0 r2,
    evaluar d h NINGUNA fecha = inr r0
    /\ evaluar d h FASE_2 fecha = inr r2
    /\ (puede_circular r2 = true -> puede_circular r0 = true)
    /\ restriccion_normal r2 = restriccion_normal r0.
Proof.
  intros Hd Hh.
  destruct (evaluar_circulacion_banderas d h NINGUNA fecha Hd Hh)
    as (r0 & Hr0 & Hp0 & Hb0).
  destruct (evaluar_circulacion_banderas d h FASE_2 fecha Hd Hh)
    as (r2 & Hr2 & Hp2 & Hb2).
  exists r0, r2. split; [exact Hr0 |]. split; [exact Hr2 |].
  destruct Hb0 as [(He0 & Hn0 & Hc0) | (Hx0 & Hn0 & Hc0)],
           Hb2 as [(He2 & Hn2 & Hc2) | (Hx2 & Hn2 & Hc2)];
    try (exfalso; eauto using exento_no_restringido; fail);
    decide_niveles.
  - rewrite Hp0, Hn0, Hn2, Hc0. split; reflexivity.
  - assert (restriccion_normal r2 = restriccion_normal r0) as Hn
      by congruence.
    rewrite Hp0, Hp2, Hc0, Hn. split; [| reflexivity].
    destruct (restriccion_normal r0); [discriminate | reflexivity].
Qed.

(** X6: on Saturday and Sunday the contingency level does not matter: the
    verdict of a valid input is the same under any two levels. *)
Theorem X6_fin_de_semana_sin_contingencia
    (d : Z) (h : string) (n n' : NivelContingencia) (fecha : option date) :
  0 <= d <= 9 -> h ∈ hologramas_validos ->
  isoweekday (fecha_de fecha) = 6 \/ isoweekday (fecha_de fecha) = 7 ->
  exists r r',
    evaluar d h n fecha = inr r
    /\ evaluar d h n' fecha = inr r'
    /\ puede_circular r = puede_circular r'.
Proof.
  intros Hd Hh Hw.
  destruct (evaluar_circulacion_banderas d h n fecha Hd Hh)
    as (r & Hr & Hp & Hb).
  destruct (evaluar_circulacion_banderas d h n' fecha Hd Hh)
    as (r' & Hr' & Hp' & Hb').
  exists r, r'. split; [exact Hr |]. split; [exact Hr' |].
  assert (en_range (isoweekday (fecha_de fecha)) 1 6 = false) as Hrange
    by (apply en_range_false; lia).
  assert (FASE2_RESTRICCION_HOLOGRAMA_0_00 !! isoweekday (fecha_de fecha)
          = None) as Hfuera by (apply FASE2_RESTRICCION_fuera; lia).
  destruct Hb as [(He & Hn & Hc) | (Hx & Hn & Hc)],
           Hb' as [(He' & Hn' & Hc') | (Hx' & Hn' & Hc')];
    try (exfalso; eauto using exento_no_restringido; fail).
  - rewrite Hfuera in Hc, Hc'. cbn in Hc, Hc'.
    rewrite andb_false_r in Hc, Hc'.
    rewrite Hp, Hp', Hn, Hn', Hc, Hc'. reflexivity.
  - rewrite Hrange, andb_false_r in Hc, Hc'.
    assert (restriccion_normal r' = restriccion_normal r) as Heq
      by congruence.
    rewrite Hp, Hp', Hc, Hc', Heq.
    destruct (bool_decide (n = FASE_1)), (bool_decide (n' = FASE_1)),
      (restriccion_normal r); reflexivity.
Qed.

(** X7: under the regular program every plate rests exactly one weekday:
    for each digit there is one day from Monday to Friday on which stickers
    "1" and "2" may not drive with no contingency, and on the other four
    they may. *)
Theorem X7_un_dia_de_descanso (d : Z) :
  0 <= d <= 9 ->
  exists w0,
    1 <= w0 <= 5
    /\ forall h fecha,
         h ∈ hologramas_restringidos ->
         1 <= isoweekday (fecha_de fecha) <= 5 ->
         exists r,
           evaluar d h NINGUNA fecha = inr r
           /\ (puede_circular r = false <-> isoweekday (fecha_de fecha) = w0).
Proof.
  intros Hd.
  assert (forall w0,
            (forall w, 1 <= w <= 5 ->
               (en d (default [] (RESTRICCION_SEMANAL !! w)) = true
                <-> w = w0)) ->
            forall h fecha,
              h ∈ hologramas_restringidos ->
              1 <= isoweekday (fecha_de fecha) <= 5 ->
              exists r,
                evaluar d h NINGUNA fecha = inr r
                /\ (puede_circular r = false
                    <-> isoweekday (fecha_de fecha) = w0)) as Hgen.
  { intros w0 Hw0 h fecha Hh Hw.
    destruct (evaluar_circulacion_restringido date_today strftime_A d h NINGUNA fecha Hd Hh)
      as (r & Hr & Hn & Hc & Hp).
    exists r. split; [exact Hr |].
    assert (en_range (isoweekday (fecha_de fecha)) 1 6 = true) as Hrange
      by (apply en_range_true; lia).
    assert (isoweekday (fecha_de fecha) =? 6 = false) as Hno6
      by (apply Z.eqb_neq; lia).
    rewrite Hrange, Hno6 in Hn. cbn in Hn, Hc. rewrite orb_false_r in Hn.
    rewrite Hp, Hc, orb_false_r, negb_false_iff, Hn.
    apply Hw0. exact Hw. }
  assert (forall w, 1 <= w <= 5 -> w ∈ [1; 2; 3; 4; 5]) as Hdias
    by (intros w Hw; rewrite !elem_of_cons, elem_of_nil; lia).
  apply digito_cases in Hd as Hcases.
  casos_lista Hcases;
    [ exists 5 | exists 4 | exists 4 | exists 3 | exists 3
    | exists 1 | exists 1 | exists 2 | exists 2 | exists 5 ];
    (split; [lia |]); apply Hgen; intros w Hw; apply Hdias in Hw;
    casos_lista Hw; (split; [first [discriminate | reflexivity] |
                             first [lia | reflexivity]]).
Qed.

End MasPropiedades.

(** X8: within a month the week number runs from 1 to 5 and the Saturday
    digits are 5, 6, 7, 8 on days 1-7, 15-21 and 29-31 and 0, 1, 2, 3, 4, 9
    on days 8-14 and 22-28: a fifth week uses the digits of the odd weeks. *)
Theorem X8_semanas_del_mes (f : date) :
  date_valida f = true ->
  1 <= _semana_del_mes f <= 5
  /\ (_digitos_restringidos_sabado f = [5; 6; 7; 8]
      <-> (1 <= day f <= 7 \/ 15 <= day f <= 21 \/ 29 <= day f <= 31))
  /\ (_digitos_restringidos_sabado f = [0; 1; 2; 3; 4; 9]
      <-> (8 <= day f <= 14 \/ 22 <= day f <= 28)).
Proof.
  intros Hv. apply date_valida_day in Hv.
  unfold _digitos_restringidos_sabado, _semana_del_mes.
  assert (day f ∈ [1; 2; 3; 4; 5; 6; 7; 8; 9; 10; 11; 12; 13; 14; 15; 16;
                   17; 18; 19; 20; 21; 22; 23; 24; 25; 26; 27; 28; 29; 30;
                   31]) as Hc
    by (rewrite !elem_of_cons, elem_of_nil; lia).
  casos_lista Hc; rewrite Hc; clear Hv Hc;
    set (semana := (_ - 1) / 7 + 1); vm_compute in semana; subst semana;
    set (impar := negb _); vm_compute in impar; subst impar; cbv iota;
    (split; [lia |]);
    (split; (split; [first [discriminate | intros _; lia]
                    | first [intros _; reflexivity | lia]])).
Qed.

(** * The contingency service *)

(** X9: [fase_a_nivel] recognises exactly the two spellings ["Fase 1"] and
    ["Fase 2"]; a missing phase and any other text give [NINGUNA]. *)
Theorem X9_fase_a_nivel (fase : option string) :
  (fase_a_nivel fase = FASE_1 <-> fase = Some "Fase 1")
  /\ (fase_a_nivel fase = FASE_2 <-> fase = Some "Fase 2")
  /\ (fase_a_nivel fase = NINGUNA
      <-> fase <> Some "Fase 1" /\ fase <> Some "Fase 2").
Proof.
  unfold fase_a_nivel.
  destruct fase as [k |]; cbn [mbind option_bind default from_option id].
  - destruct (list_to_map [("Fase 1", FASE_1); ("Fase 2", FASE_2)] !! k)
      as [n |] eqn:Hk.
    + apply (elem_of_list_to_map_2 (M := gmap string)) in Hk.
      casos_lista Hk; injection Hk as -> ->; cbn;
        repeat split; intros; try discriminate; try reflexivity;
        try tauto; intuition discriminate.
    + assert (k <> "Fase 1") as H1
        by (intros ->; vm_compute in Hk; discriminate).
      assert (k <> "Fase 2") as H2
        by (intros ->; vm_compute in Hk; discriminate).
      cbn. repeat split; intros; try discriminate; try congruence.
  - cbn. repeat split; intros; try discriminate; try reflexivity.
Qed.

Section PropiedadesEspacios.

Variable isspace : ascii -> bool.

Local Abbreviation desde := (re_sub_espacios_desde isspace).

Lemma tiene_racha_cons (c x : ascii) (r : string) :
  tiene_racha isspace (String c (String x r))
  = (isspace c && isspace x) || tiene_racha isspace (String x r).
Proof. reflexivity. Qed.

Lemma re_sub_espacios_desde_racha_cabeza (s : string) :
  match desde true s with
  | EmptyString => True
  | String c _ => isspace c = false
  end.
Proof.
  induction s as [| c s IH]; cbn; [exact I |].
  destruct (isspace c) eqn:Hc; [exact IH | exact Hc].
Qed.

Lemma re_sub_espacios_desde_sin_racha (s : string) (b : bool) :
  tiene_racha isspace (desde b s) = false.
Proof.
  revert b. induction s as [| c s IH]; intros b; [reflexivity |].
  cbn [re_sub_espacios_desde].
  destruct (isspace c) eqn:Hc.
  - destruct b; [apply IH |].
    destruct s as [| c' s']; [reflexivity |].
    destruct (isspace c') eqn:Hc'.
    + pose proof (re_sub_espacios_desde_racha_cabeza (String c' s')) as Hcab.
      pose proof (IH true) as IHt.
      destruct (desde true (String c' s')) as [| x r]; [reflexivity |].
      rewrite tiene_racha_cons, Hcab, andb_false_r. exact IHt.
    + pose proof (IH false) as IHf.
      cbn [re_sub_espacios_desde] in IHf |- *. rewrite Hc' in IHf |- *.
      rewrite tiene_racha_cons, Hc', andb_false_r. exact IHf.
  - pose proof (IH false) as IHf.
    destruct (desde false s) as [| x r]; [reflexivity |].
    rewrite tiene_racha_cons, Hc. exact IHf.
Qed.

Lemma re_sub_espacios_desde_length (s : string) (b : bool) :
  (String.length (desde b s) <= String.length s)%nat.
Proof.
  revert b. induction s as [| c s IH]; intros b; [reflexivity |].
  cbn [re_sub_espacios_desde].
  destruct (isspace c).
  - destruct b; [specialize (IH true); cbn; lia |].
    destruct s as [| c' s']; [reflexivity |].
    destruct (isspace c'); [specialize (IH true) | specialize (IH false)];
      cbn [String.length] in *; lia.
  - specialize (IH false). cbn [String.length]. lia.
Qed.

Lemma str_lstrip_length (s : string) :
  (String.length (str_lstrip isspace s) <= String.length s)%nat.
Proof.
  induction s as [| c s IH]; [reflexivity |].
  cbn [str_lstrip]. destruct (isspace c); cbn [String.length]; lia.
Qed.

Lemma str_rstrip_length (s : string) :
  (String.length (str_rstrip isspace s) <= String.length s)%nat.
Proof.
  induction s as [| c s IH]; [reflexivity |].
  cbn [str_rstrip].
  destruct (str_rstrip isspace s) as [| x r].
  - destruct (isspace c); cbn [String.length]; lia.
  - cbn [String.length] in *. lia.
Qed.

Lemma str_strip_length (s : string) :
  (String.length (str_strip isspace s) <= String.length s)%nat.
Proof.
  unfold str_strip.
  pose proof (str_rstrip_length (str_lstrip isspace s)).
  pose proof (str_lstrip_length s). lia.
Qed.

Lemma str_lstrip_sin_racha (s : string) :
  tiene_racha isspace s = false ->
  tiene_racha isspace (str_lstrip isspace s) = false.
Proof.
  induction s as [| c s IH]; [reflexivity |].
  intros Hs. cbn [str_lstrip].
  destruct (isspace c); [| exact Hs].
  apply IH.
  destruct s as [| c' s']; [reflexivity |].
  rewrite tiene_racha_cons in Hs.
  apply orb_false_iff in Hs as [_ Hs]. exact Hs.
Qed.

Lemma str_rstrip_cabeza (s : string) (x : ascii) (r : string) :
  str_rstrip isspace s = String x r -> exists s', s = String x s'.
Proof.
  destruct s as [| c s]; [discriminate |].
  cbn [str_rstrip].
  destruct (str_rstrip isspace s) as [| y r'].
  - destruct (isspace c); [discriminate |]. intros [= <- _]. eauto.
  - intros [= <- _]. eauto.
Qed.

Lemma str_rstrip_sin_racha (s : string) :
  tiene_racha isspace s = false ->
  tiene_racha isspace (str_rstrip isspace s) = false.
Proof.
  induction s as [| c s IH]; [reflexivity |].
  intros Hs. cbn [str_rstrip].
  destruct (str_rstrip isspace s) as [| x r] eqn:Hr.
  - destruct (isspace c); reflexivity.
  - destruct (str_rstrip_cabeza s x r Hr) as [s' ->].
    rewrite tiene_racha_cons in Hs |- *.
    apply orb_false_iff in Hs as [Hcx Hs].
    rewrite Hcx. apply IH. exact Hs.
Qed.

Lemma str_strip_sin_racha (s : string) :
  tiene_racha isspace s = false ->
  tiene_racha isspace (str_strip isspace s) = false.
Proof.
  intros Hs. unfold str_strip.
  apply str_rstrip_sin_racha, str_lstrip_sin_racha, Hs.
Qed.

End PropiedadesEspacios.

Lemma substring_length_le (n m : nat) (s : string) :
  (String.length (substring n m s) <= m)%nat.
Proof.
  revert n m. induction s as [| c s IH]; intros n m.
  - destruct n, m; cbn; lia.
  - destruct n as [| n].
    + destruct m as [| m]; cbn; [lia |]. specialize (IH 0%nat m). lia.
    + cbn. apply IH.
Qed.

Lemma substring_length_le_s (n m : nat) (s : string) :
  (String.length (substring n m s) <= String.length s)%nat.
Proof.
  revert n m. induction s as [| c s IH]; intros n m.
  - destruct n, m; cbn; lia.
  - destruct n as [| n].
    + destruct m as [| m]; cbn; [lia |]. specialize (IH 0%nat m). lia.
    + cbn. specialize (IH n m). lia.
Qed.

Section PropiedadesContingencia.

Variable isspace : ascii -> bool.
Variable requests_get : string -> respuesta_get.
Variable soup_get_text : string -> string.
Variable _RE_FASE_2_search : string -> option Match.
Variable _RE_FASE_1_search : string -> option Match.

Local Abbreviation fetch := (_fetch_html requests_get).
Local Abbreviation limpio := (_extraer_texto_limpio isspace soup_get_text).
Local Abbreviation snippet := (_extraer_snippet isspace).
Local Abbreviation detectar :=
  (_detectar_fase isspace _RE_FASE_2_search _RE_FASE_1_search).
Local Abbreviation verificar_desde :=
  (verificar_contingencia_desde isspace requests_get soup_get_text
     _RE_FASE_2_search _RE_FASE_1_search).
Local Abbreviation verificar :=
  (verificar_contingencia isspace requests_get soup_get_text
     _RE_FASE_2_search _RE_FASE_1_search).

Lemma _fetch_html_200 (url html : string) :
  requests_get url = GetResponse 200 html -> fetch url = (Some html, None).
Proof. intros Hg. unfold _fetch_html. rewrite Hg. reflexivity. Qed.

Lemma _fetch_html_falla (url : string) :
  (forall html, requests_get url <> GetResponse 200 html) ->
  exists msg, fetch url = (None, Some msg) /\ str_bool msg = true.
Proof.
  intros Hno. unfold _fetch_html.
  destruct (requests_get url) as [| exc | exc | status text] eqn:Hg;
    try (eexists; split; reflexivity).
  destruct (Z.eqb_spec status 200) as [-> | Hne].
  - exfalso. apply (Hno text). reflexivity.
  - eexists; split; reflexivity.
Qed.

(** X10: [_fetch_html] returns the page exactly when the server answers
    with status 200, and otherwise returns no page and a non-empty error
    text: a timeout, a connection error, another request error and every
    other status code are all reported, never raised. *)
Theorem X10_fetch_html (url : string) :
  (forall html,
     fetch url = (Some html, None)
     <-> requests_get url = GetResponse 200 html)
  /\ ((forall html, requests_get url <> GetResponse 200 html) ->
      exists msg, fetch url = (None, Some msg) /\ str_bool msg = true).
Proof.
  split; [| apply _fetch_html_falla].
  intros html. split; [| apply _fetch_html_200].
  unfold _fetch_html.
  destruct (requests_get url) as [| exc | exc | status text];
    try discriminate.
  destruct (Z.eqb_spec status 200) as [-> | Hne]; [| discriminate].
  intros [= ->]. reflexivity.
Qed.

(** X11: the stricter phase wins. The level that [fase_a_nivel] gives to
    the phase [_detectar_fase] finds is [FASE_2] whenever the Phase 2
    pattern matches, also when the Phase 1 pattern matches too; [FASE_1]
    when only the Phase 1 pattern matches; [NINGUNA] when neither does. *)
Theorem X11_fase_mas_grave_primero (texto : string) :
  let nivel := fase_a_nivel (fst (detectar texto)) in
  (nivel = FASE_2 <-> is_Some (_RE_FASE_2_search texto))
  /\ (nivel = FASE_1
      <-> _RE_FASE_2_search texto = None
          /\ is_Some (_RE_FASE_1_search texto))
  /\ (nivel = NINGUNA
      <-> _RE_FASE_2_search texto = None /\ _RE_FASE_1_search texto = None).
Proof.
  unfold _detectar_fase.
  destruct (_RE_FASE_2_search texto) as [m2 |];
    [| destruct (_RE_FASE_1_search texto) as [m1 |]];
    cbn; repeat split; intros; try discriminate; try reflexivity;
    try (eexists; reflexivity);
    repeat match goal with
           | H : _ /\ _ |- _ => destruct H
           | H : is_Some None |- _ => destruct H; discriminate
           end; try discriminate.
Qed.

Lemma verificar_contingencia_desde_coherente
    (urls : list string) (errores : list string) :
  let r := verificar_desde urls errores in
  (hay_contingencia r = true <-> fase r <> None)
  /\ (fase r = None \/ fase r = Some "Fase 1" \/ fase r = Some "Fase 2").
Proof.
  revert errores. induction urls as [| url urls IH]; intros errores r.
  - subst r. cbn. split; [| left; reflexivity].
    split; [discriminate | intros H; contradiction H; reflexivity].
  - subst r. cbn [verificar_contingencia_desde].
    destruct (fetch url) as [html error].
    destruct (opt_str_bool error || bool_decide (html = None)); [apply IH |].
    unfold _detectar_fase.
    destruct (_RE_FASE_2_search _) as [m2 |];
      [| destruct (_RE_FASE_1_search _) as [m1 |]]; cbn.
    + split; [| right; right; reflexivity].
      split; [discriminate | intros _; reflexivity].
    + split; [| right; left; reflexivity].
      split; [discriminate | intros _; reflexivity].
    + split; [| left; reflexivity].
      split; [discriminate | intros H; contradiction H; reflexivity].
Qed.

(** X12: the dictionary [verificar_contingencia] returns is coherent on
    every path: [hay_contingencia] is true exactly when [fase] is not
    [None], [fase] is [None], ["Fase 1"] or ["Fase 2"], and so the level
    [fase_a_nivel] derives from it is [NINGUNA] exactly when
    [hay_contingencia] is false. *)
Theorem X12_resultado_coherente :
  (hay_contingencia verificar = true <-> fase verificar <> None)
  /\ (fase verificar = None \/ fase verificar = Some "Fase 1"
      \/ fase verificar = Some "Fase 2")
  /\ (hay_contingencia verificar = false
      <-> fase_a_nivel (fase verificar) = NINGUNA).
Proof.
  destruct (verificar_contingencia_desde_coherente CAME_URLS [])
    as [Hhay Hfase].
  fold verificar in Hhay, Hfase.
  split; [exact Hhay |]. split; [exact Hfase |].
  destruct Hhay as [Hhay1 Hhay2].
  destruct Hfase as [Hf | [Hf | Hf]]; rewrite Hf in Hhay1, Hhay2 |- *.
  - change (fase_a_nivel None) with NINGUNA.
    split; [reflexivity | intros _].
    destruct (hay_contingencia verificar); [| reflexivity].
    exfalso. apply (Hhay1 eq_refl). reflexivity.
  - change (fase_a_nivel (Some "Fase 1")) with FASE_1.
    rewrite Hhay2 by discriminate. split; discriminate.
  - change (fase_a_nivel (Some "Fase 2")) with FASE_2.
    rewrite Hhay2 by discriminate. split; discriminate.
Qed.

Lemma verificar_contingencia_desde_sin_respuesta
    (urls : list string) (errores : list string) :
  (forall url, url ∈ urls ->
     forall html, requests_get url <> GetResponse 200 html) ->
  verificar_desde urls errores
  = mk_ResultadoContingencia false None
      ("No se pudo consultar el portal de la CAMe. Errores encontrados: "
       +:+ str_join " | "
             (errores ++ map (fun url => default "" (snd (fetch url))) urls)).
Proof.
  revert errores. induction urls as [| url urls IH]; intros errores Hno.
  - cbn. rewrite app_nil_r. reflexivity.
  - cbn [verificar_contingencia_desde map].
    destruct (_fetch_html_falla url) as (msg & Hf & Hmsg).
    { apply Hno. left. }
    rewrite Hf. cbn [opt_str_bool snd default from_option id].
    rewrite Hmsg. cbn [orb].
    rewrite IH by (intros u Hu; apply Hno; right; exact Hu).
    rewrite <- app_assoc. reflexivity.
Qed.

(** X13: when no URL answers with status 200 the check degrades to "no
    contingency": [hay_contingencia] is false, [fase] is [None] (level
    [NINGUNA]), and [detalle] lists the error of every URL, in order,
    separated by [" | "]. *)
Theorem X13_sin_respuesta_no_hay_contingencia :
  (forall url, url ∈ CAME_URLS ->
     forall html, requests_get url <> GetResponse 200 html) ->
  hay_contingencia verificar = false
  /\ fase verificar = None
  /\ fase_a_nivel (fase verificar) = NINGUNA
  /\ detalle verificar
     = "No se pudo consultar el portal de la CAMe. Errores encontrados: "
       +:+ str_join " | "
             (map (fun url => default "" (snd (fetch url))) CAME_URLS).
Proof.
  intros Hno. unfold verificar_contingencia.
  rewrite (verificar_contingencia_desde_sin_respuesta CAME_URLS [] Hno).
  repeat split; reflexivity.
Qed.

(** X14: the first URL that answers with status 200 decides alone: the
    result is the one of consulting that URL only, whatever errors came
    before it and whatever URLs follow it, which are not consulted. *)
Theorem X14_primera_respuesta_decide
    (pre post errores : list string) (url html : string) :
  (forall u, u ∈ pre -> forall h, requests_get u <> GetResponse 200 h) ->
  requests_get url = GetResponse 200 html ->
  verificar_contingencia_desde isspace requests_get soup_get_text
    _RE_FASE_2_search _RE_FASE_1_search (pre ++ url :: post) errores
  = verificar_contingencia_desde isspace requests_get soup_get_text
      _RE_FASE_2_search _RE_FASE_1_search [url] [].
Proof.
  intros Hpre Hurl. revert errores.
  induction pre as [| u pre IH]; intros errores.
  - cbn [app verificar_contingencia_desde].
    rewrite (_fetch_html_200 url html Hurl). cbn [opt_str_bool orb].
    rewrite (bool_decide_eq_false_2 (Some html = None)) by discriminate.
    reflexivity.
  - cbn [app verificar_contingencia_desde].
    destruct (_fetch_html_falla u) as (msg & Hf & Hmsg).
    { apply Hpre. left. }
    rewrite Hf. cbn [opt_str_bool]. rewrite Hmsg. cbn [orb].
    apply IH. intros v Hv. apply Hpre. right. exact Hv.
Qed.

(** X15: a page whose cleaned text is empty is searched in its raw HTML,
    and an empty answer with status 200 is an answer, not an error: the
    phase reported is the one found in the raw page and the URLs that
    follow are not consulted. *)
Theorem X15_texto_vacio_busca_en_html
    (post errores : list string) (url html : string) :
  requests_get url = GetResponse 200 html ->
  _extraer_texto_limpio isspace soup_get_text html = "" ->
  let r := verificar_contingencia_desde isspace requests_get soup_get_text
             _RE_FASE_2_search _RE_FASE_1_search (url :: post) errores in
  fase r
  = fst (_detectar_fase isspace _RE_FASE_2_search _RE_FASE_1_search html)
  /\ detalle r
     = snd (_detectar_fase isspace _RE_FASE_2_search _RE_FASE_1_search html).
Proof.
  intros Hurl Hvacio r. subst r.
  cbn [verificar_contingencia_desde].
  rewrite (_fetch_html_200 url html Hurl). cbn [opt_str_bool orb].
  rewrite (bool_decide_eq_false_2 (Some html = None)) by discriminate.
  cbn [default from_option id]. rewrite Hvacio. cbn [str_bool negb].
  destruct (detectar html) as [f det]. split; reflexivity.
Qed.

(** X16: the snippet shown as detail is short and tidy: it has at most the
    length of the match plus 250 characters on each side, is never longer
    than the text, and contains no run of two or more whitespace
    characters. *)
Theorem X16_snippet_acotado (texto : string) (m : Match) :
  0 <= m_start m <= m_end m ->
  len (snippet texto m) <= (m_end m - m_start m) + 2 * _SNIPPET_RADIO
  /\ len (snippet texto m) <= len texto
  /\ tiene_racha isspace (snippet texto m) = false.
Proof.
  intros Hm. unfold _extraer_snippet, re_sub_espacios.
  split; [| split]; [| | apply re_sub_espacios_desde_sin_racha].
  - match goal with
    | |- len (re_sub_espacios_desde _ _ (str_strip _ ?frag)) <= _ =>
        pose proof (re_sub_espacios_desde_length isspace
                      (str_strip isspace frag) false) as H1;
        pose proof (str_strip_length isspace frag) as H2
    end.
    unfold str_slice in *.
    match goal with
    | H : (_ <= String.length (substring ?n ?k texto))%nat |- _ =>
        pose proof (substring_length_le n k texto) as H3
    end.
    unfold len in *. unfold _SNIPPET_RADIO in *.
    repeat match goal with
           | H : context [if ?b then _ else _] |- _ =>
               destruct b eqn:?
           | |- context [if ?b then _ else _] => destruct b eqn:?
           end; lia.
  - match goal with
    | |- len (re_sub_espacios_desde _ _ (str_strip _ ?frag)) <= _ =>
        pose proof (re_sub_espacios_desde_length isspace
                      (str_strip isspace frag) false) as H1;
        pose proof (str_strip_length isspace frag) as H2
    end.
    unfold str_slice in *.
    match goal with
    | H : (_ <= String.length (substring ?n ?k texto))%nat |- _ =>
        pose proof (substring_length_le_s n k texto) as H3
    end.
    unfold len in *. lia.
Qed.

(** X17: the cleaned text of a page contains no run of two or more
    whitespace characters and is never longer than the text the parser
    extracted. *)
Theorem X17_texto_limpio_normalizado (html : string) :
  tiene_racha isspace (limpio html) = false
  /\ len (limpio html) <= len (soup_get_text html).
Proof.
  unfold _extraer_texto_limpio, re_sub_espacios. split.
  - apply str_strip_sin_racha, re_sub_espacios_desde_sin_racha.
  - pose proof (str_strip_length isspace
                  (re_sub_espacios_desde isspace false (soup_get_text html))).
    pose proof (re_sub_espacios_desde_length isspace (soup_get_text html)
                  false).
    unfold len. lia.
Qed.

End PropiedadesContingencia.

(** * The orchestrator *)

Lemma prefix_append (a b : string) : String.prefix a (a +:+ b) = true.
Proof.
  induction a as [| c a IH].
  - destruct b; reflexivity.
  - change (String c a +:+ b) with (String c (a +:+ b)).
    change (String.prefix (String c a) (String c (a +:+ b)))
      with (if Ascii.ascii_dec c c
            then String.prefix a (a +:+ b) else false).
    destruct (Ascii.ascii_dec c c); [exact IH | contradiction].
Qed.

Lemma append_cons (x : ascii) (a b : string) :
  String x a +:+ b = String x (a +:+ b).
Proof. reflexivity. Qed.

Lemma append_assoc (a b c : string) : (a +:+ b) +:+ c = a +:+ (b +:+ c).
Proof.
  induction a as [| x a IH]; [reflexivity |].
  rewrite !append_cons, IH. reflexivity.
Qed.

Lemma formatear_fecha_forma (f : date) (s : string) :
  formatear_fecha f = Some s ->
  exists nombre_dia nombre_mes,
    NOMBRES_DIA !! isoweekday f = Some nombre_dia
    /\ 1 <= month f <= 12
    /\ s = nombre_dia +:+ " " +:+ str_int (day f) +:+ " de " +:+
           nombre_mes +:+ " de " +:+ str_int (year f).
Proof.
  unfold formatear_fecha. cbv zeta.
  fold NOMBRES_DIA.
  destruct (NOMBRES_DIA !! isoweekday f) as [nd |]; [| discriminate].
  cbn [mbind option_bind].
  match goal with
  | |- context [@lookup _ _ _ _ (month f) ?m] =>
      destruct (m !! month f) as [nm |] eqn:Hm
  end; [| discriminate].
  cbn [mbind option_bind]. intros [= <-].
  exists nd, nm. split; [reflexivity |]. split; [| reflexivity].
  apply (elem_of_list_to_map_2 (M := gmap Z)) in Hm.
  casos_lista Hm; injection Hm as -> _; lia.
Qed.

Lemma formatear_fecha_total (f : date) :
  1 <= month f <= 12 -> is_Some (formatear_fecha f).
Proof.
  intros Hm. unfold formatear_fecha. cbv zeta. fold NOMBRES_DIA.
  destruct (NOMBRES_DIA_total _ (isoweekday_range f)) as [nd ->].
  cbn [mbind option_bind].
  assert (month f ∈ [1; 2; 3; 4; 5; 6; 7; 8; 9; 10; 11; 12]) as Hc
    by (rewrite !elem_of_cons, elem_of_nil; lia).
  casos_lista Hc; rewrite Hc; eexists; reflexivity.
Qed.

(** X18: [formatear_fecha] fails only on a month outside 1..12, and the
    weekday it writes first is the [dia] of the evaluation of the same
    date: the table of [main.py] and the one of [reglas_service.py]
    agree. *)
Theorem X18_formatear_fecha (f : date) :
  (is_Some (formatear_fecha f) <-> 1 <= month f <= 12)
  /\ (forall hoy loc d h n r s,
        evaluar_circulacion hoy loc d h n (Some f) = inr r ->
        formatear_fecha f = Some s ->
        String.prefix (dia r +:+ " ") s = true).
Proof.
  split.
  - split; [| apply formatear_fecha_total].
    intros [s Hs]. destruct (formatear_fecha_forma f s Hs) as (_ & _ & _ & Hm & _).
    exact Hm.
  - intros hoy loc d h n r s Hev Hs.
    destruct (formatear_fecha_forma f s Hs) as (nd & nm & Hnd & _ & ->).
    destruct (evaluar_circulacion_campos hoy loc d h n (Some f) r Hev)
      as (_ & _ & _ & Hdia).
    cbn [fecha_evaluada default from_option id] in Hdia.
    rewrite Hnd in Hdia. injection Hdia as <-.
    rewrite <- append_assoc. apply prefix_append.
Qed.

Section PropiedadesMain.

Variable isspace : ascii -> bool.
Variable requests_get : string -> respuesta_get.
Variable soup_get_text : string -> string.
Variable _RE_FASE_2_search : string -> option Match.
Variable _RE_FASE_1_search : string -> option Match.
Variable date_today : date.
Variable strftime_A : date -> string.
Variable py_int : string -> option Z.

Local Abbreviation cargar := (cargar_configuracion py_int).
Local Abbreviation evaluar := (evaluar_circulacion date_today strftime_A).
Local Abbreviation contingencia :=
  (verificar_contingencia isspace requests_get soup_get_text
     _RE_FASE_2_search _RE_FASE_1_search).
Local Abbreviation principal :=
  (main isspace requests_get soup_get_text _RE_FASE_2_search
     _RE_FASE_1_search date_today strftime_A py_int).

Lemma cargar_configuracion_ok (env : gmap string string) (config : Config) :
  cargar env = inr config ->
  exists d raw,
    env !! "PLACA_ULTIMO_DIGITO" = Some raw
    /\ py_int raw = Some d
    /\ config_ultimo_digito config = Some d
    /\ 0 <= d <= 9
    /\ env !! "HOLOGRAMA" = Some (config_holograma config)
    /\ config_holograma config ∈ hologramas_validos
    /\ opt_str_bool (env !! "TELEGRAM_BOT_TOKEN") = true
    /\ opt_str_bool (env !! "TELEGRAM_CHAT_ID") = true
    /\ config_notificar_solo_no_circula config
       = String.eqb
           (str_lower (default "true" (env !! "NOTIFICAR_SOLO_SI_NO_CIRCULA")))
           "true".
Proof.
  unfold cargar_configuracion. cbn [fold_left].
  destruct (opt_str_bool (env !! "TELEGRAM_BOT_TOKEN")) eqn:Htok;
  destruct (opt_str_bool (env !! "TELEGRAM_CHAT_ID")) eqn:Hchat;
  destruct (env !! "PLACA_ULTIMO_DIGITO") as [[| c raw] |] eqn:Hraw;
  destruct (env !! "HOLOGRAMA") as [[| c' h] |] eqn:Hh;
  cbn [opt_str_bool str_bool negb app default from_option id andb];
  try destruct (py_int _) as [d |] eqn:Hint;
  try destruct (en_range _ 0 10) eqn:Hrange;
  try destruct (bool_decide (_ ∈ ["00"; "0"; "1"; "2"])) eqn:Hval;
  cbn [negb app andb];
  try (rewrite bool_decide_eq_false_2 by discriminate; cbn [negb];
       discriminate).
  rewrite (bool_decide_eq_true_2 _ (eq_refl (@nil string))). cbn [negb].
  intros [= <-]. exists d, (String c raw). cbn.
  apply en_range_true in Hrange. apply bool_decide_eq_true in Hval.
  repeat split; try reflexivity; try assumption; lia.
Qed.

(** X19: a configuration that [cargar_configuracion] accepts is one the
    engine accepts: the digit lies in 0..9, the sticker is one of the four
    values, both Telegram variables are set and not empty, and
    [evaluar_circulacion] returns a result on it for every level and
    date. *)
Theorem X19_configuracion_aceptada
    (env : gmap string string) (config : Config) :
  cargar env = inr config ->
  exists d,
    config_ultimo_digito config = Some d
    /\ 0 <= d <= 9
    /\ config_holograma config ∈ hologramas_validos
    /\ opt_str_bool (env !! "TELEGRAM_BOT_TOKEN") = true
    /\ opt_str_bool (env !! "TELEGRAM_CHAT_ID") = true
    /\ forall n fecha,
         exists r, evaluar d (config_holograma config) n fecha = inr r.
Proof.
  intros Hc.
  destruct (cargar_configuracion_ok env config Hc)
    as (d & raw & _ & _ & Hd & Hrange & _ & Hh & Htok & Hchat & _).
  exists d. repeat split; try assumption; try lia.
  intros n fecha. apply evaluar_circulacion_valido; assumption.
Qed.

(** X20: configuration errors are collected, not raised one by one: each
    required variable that is missing or empty has its own line among the
    errors printed before the exit. *)
Theorem X20_errores_de_configuracion
    (env : gmap string string) (var : string) :
  var ∈ ["TELEGRAM_BOT_TOKEN"; "TELEGRAM_CHAT_ID"; "PLACA_ULTIMO_DIGITO";
         "HOLOGRAMA"] ->
  opt_str_bool (env !! var) = false ->
  exists errores,
    cargar env
    = inl ["❌ Errores de configuración en .env:" +:+ nl +:+
           str_join nl errores;
           nl +:+ "Copia .env.example a .env y completa los valores requeridos."]
    /\ ("  • " +:+ var +:+ " no está definida en .env") ∈ errores.
Proof.
  clear isspace requests_get soup_get_text _RE_FASE_2_search
    _RE_FASE_1_search date_today strftime_A.
  intros Hvar Hfalta.
  unfold cargar_configuracion.
  set (e1 := fold_left _ _ _).
  set (linea := "  • " +:+ var +:+ " no está definida en .env").
  assert (linea ∈ e1) as H1.
  { subst e1 linea. cbn [fold_left].
    casos_lista Hvar; rewrite Hfalta; cbn [negb];
      repeat match goal with
             | |- context [if negb ?b then _ else _] => destruct b; cbn [negb]
             end;
      rewrite ?elem_of_app, ?elem_of_cons, ?elem_of_nil; tauto. }
  clearbody e1 linea.
  assert (forall l, linea ∈ l -> bool_decide (l = []) = false) as Hno.
  { intros l Hl. apply bool_decide_eq_false_2. intros ->.
    apply elem_of_nil in Hl. exact Hl. }
  destruct (str_bool (default "" (env !! "PLACA_ULTIMO_DIGITO")));
    [destruct (py_int _) as [d |]; [destruct (en_range d 0 10) |] |];
    cbn [negb];
    destruct (str_bool _ && negb _);
    (rewrite Hno by (rewrite ?elem_of_app; tauto)); cbn [negb];
    (eexists; split; [reflexivity |]);
    rewrite ?elem_of_app; tauto.
Qed.

Lemma main_forma (env : gmap string string) (config : Config) :
  cargar env = inr config ->
  1 <= month date_today <= 12 ->
  isoweekday date_today <> 7 ->
  exists d r fecha_str,
    config_ultimo_digito config = Some d
    /\ formatear_fecha date_today = Some fecha_str
    /\ evaluar d (config_holograma config)
         (fase_a_nivel (fase contingencia)) (Some date_today) = inr r
    /\ principal env
       = if config_notificar_solo_no_circula config && puede_circular r
         then SinNotificacion
         else Envia (_construir_mensaje fecha_str
                       (hay_contingencia contingencia) (fase contingencia)
                       (puede_circular r) (razon r)).
Proof.
  intros Hc Hmes Hdia.
  destruct (cargar_configuracion_ok env config Hc)
    as (d & raw & _ & _ & Hd & Hrange & _ & Hh & _).
  destruct (formatear_fecha_total date_today Hmes) as [fecha_str Hf].
  destruct (evaluar_circulacion_valido date_today strftime_A d
              (config_holograma config) (fase_a_nivel (fase contingencia))
              (Some date_today) Hrange Hh) as [r Hr].
  exists d, r, fecha_str.
  split; [exact Hd |]. split; [exact Hf |]. split; [exact Hr |].
  unfold main. rewrite Hc, Hf.
  rewrite (proj2 (Z.eqb_neq _ _) Hdia). rewrite Hd, Hr.
  destruct (config_notificar_solo_no_circula config), (puede_circular r);
    reflexivity.
Qed.




(** X24: the contingency line of the message agrees with the level the
    evaluation used: it reads "No" exactly when the level is [NINGUNA],
    and otherwise names the phase found. *)
Theorem X24_linea_de_contingencia :
  exists texto,
    (forall fecha_str puede razon,
       _construir_mensaje fecha_str (hay_contingencia contingencia)
         (fase contingencia) puede razon
       = "📅 *" +:+ fecha_str +:+ "*" +:+ nl +:+
         "🌫 *Contingencia:* " +:+ texto +:+ nl +:+
         "🚗 *Tu auto:* " +:+
         (if puede then "✅ Circula" else "🚫 No circula") +:+ nl +:+
         "📌 *Motivo:* " +:+ razon)
    /\ ((texto = "No" /\ fase_a_nivel (fase contingencia) = NINGUNA)
        \/ (texto = "Sí (Fase 1)"
            /\ fase_a_nivel (fase contingencia) = FASE_1)
        \/ (texto = "Sí (Fase 2)"
            /\ fase_a_nivel (fase contingencia) = FASE_2)).
Proof.
  destruct (verificar_contingencia_desde_coherente isspace requests_get
              soup_get_text _RE_FASE_2_search _RE_FASE_1_search CAME_URLS [])
    as [[Hhay1 Hhay2] Hfase].
  fold contingencia in Hhay1, Hhay2, Hfase.
  destruct Hfase as [Hf | [Hf | Hf]]; rewrite Hf in Hhay2 |- *.
  - exists "No". split; [| left; split; reflexivity].
    intros fecha_str puede razon. unfold _construir_mensaje.
    cbn [opt_str_bool]. rewrite andb_false_r. reflexivity.
  - exists "Sí (Fase 1)". split; [| right; left; split; reflexivity].
    intros fecha_str puede razon. unfold _construir_mensaje.
    rewrite Hhay2 by discriminate. reflexivity.
  - exists "Sí (Fase 2)". split; [| right; right; split; reflexivity].
    intros fecha_str puede razon. unfold _construir_mensaje.
    rewrite Hhay2 by discriminate. reflexivity.
Qed.

End PropiedadesMain.

(** * WhatsApp numbers *)

Section PropiedadesWhatsapp.

Variable isspace : ascii -> bool.

Local Abbreviation lstrip := (str_lstrip isspace).
Local Abbreviation rstrip := (str_rstrip isspace).
Local Abbreviation strip := (str_strip isspace).

(** A text that neither starts nor ends with whitespace. *)
Lemma str_lstrip_id (c : ascii) (s : string) :
  isspace c = false -> lstrip (String c s) = String c s.
Proof. intros Hc. cbn [str_lstrip]. rewrite Hc. reflexivity. Qed.

Lemma str_rstrip_cons (c : ascii) (s : string) :
  rstrip (String c s)
  = match rstrip s with
    | EmptyString => if isspace c then EmptyString else String c EmptyString
    | String x r => String c (String x r)
    end.
Proof. reflexivity. Qed.

Lemma str_rstrip_idem (s : string) : rstrip (rstrip s) = rstrip s.
Proof.
  induction s as [| c s IH]; [reflexivity |].
  rewrite str_rstrip_cons.
  destruct (rstrip s) as [| x r] eqn:Hr.
  - destruct (isspace c) eqn:Hc; [reflexivity |].
    rewrite str_rstrip_cons. cbn [str_rstrip]. rewrite Hc. reflexivity.
  - rewrite str_rstrip_cons, IH. reflexivity.
Qed.

Lemma str_rstrip_cabeza_no_espacio (c : ascii) (s : string) :
  isspace c = false ->
  rstrip (String c s) = String c (rstrip s).
Proof.
  intros Hc. rewrite str_rstrip_cons.
  destruct (rstrip s); [rewrite Hc |]; reflexivity.
Qed.

Lemma str_lstrip_cabeza (s : string) :
  match lstrip s with
  | EmptyString => True
  | String c _ => isspace c = false
  end.
Proof.
  induction s as [| c s IH]; [exact I |].
  cbn [str_lstrip]. destruct (isspace c) eqn:Hc; [exact IH | exact Hc].
Qed.

Lemma str_strip_cabeza (s : string) :
  match strip s with
  | EmptyString => True
  | String c _ => isspace c = false
  end.
Proof.
  unfold str_strip.
  pose proof (str_lstrip_cabeza s) as Hl.
  destruct (lstrip s) as [| c t] eqn:Ht; [exact I |].
  rewrite (str_rstrip_cabeza_no_espacio c t Hl). exact Hl.
Qed.

Lemma str_strip_idem (s : string) : strip (strip s) = strip s.
Proof.
  pose proof (str_strip_cabeza s) as Hc.
  unfold str_strip in *.
  destruct (rstrip (lstrip s)) as [| c t] eqn:Ht; [reflexivity |].
  rewrite (str_lstrip_id c t Hc), <- Ht. apply str_rstrip_idem.
Qed.

Lemma str_rstrip_append (a s : string) :
  rstrip s = s -> s <> "" -> rstrip (a +:+ s) = a +:+ s.
Proof.
  intros Hs Hne. induction a as [| c a IH]; [exact Hs |].
  rewrite append_cons, str_rstrip_cons, IH.
  destruct (a +:+ s) eqn:Has; [| reflexivity].
  destruct a; [contradiction | discriminate].
Qed.

Lemma str_rstrip_no_espacio_final (a : string) (c : ascii) :
  isspace c = false ->
  rstrip (a +:+ String c "") = a +:+ String c "".
Proof.
  intros Hc. apply str_rstrip_append; [| discriminate].
  cbn [str_rstrip]. rewrite Hc. reflexivity.
Qed.

(** X25: [_formatear_numero] always returns a number that starts with
    ["whatsapp:"], leaves alone a number that already has the prefix and no
    surrounding whitespace, and applying it twice is the same as applying
    it once; this needs only that ["w"] and [":"] are no whitespace. *)
Theorem X25_formatear_numero (numero : string) :
  isspace "w" = false -> isspace ":" = false ->
  String.prefix "whatsapp:" (_formatear_numero isspace numero) = true
  /\ _formatear_numero isspace (_formatear_numero isspace numero)
     = _formatear_numero isspace numero
  /\ (String.prefix "whatsapp:" (strip numero) = true ->
      _formatear_numero isspace numero = strip numero).
Proof.
  intros Hw Hcolon.
  assert (forall t, strip t = t ->
            strip ("whatsapp:" +:+ t) = "whatsapp:" +:+ t) as Hpre.
  { intros t Ht. unfold str_strip.
    change ("whatsapp:" +:+ t) with (String "w" ("hatsapp:" +:+ t)).
    rewrite (str_lstrip_id "w" _ Hw).
    change (String "w" ("hatsapp:" +:+ t)) with ("whatsapp:" +:+ t).
    destruct t as [| c t'].
    - change ("whatsapp:" +:+ "") with ("whatsapp" +:+ String ":" "").
      apply str_rstrip_no_espacio_final. exact Hcolon.
    - apply str_rstrip_append; [| discriminate].
      pose proof (str_strip_cabeza (String c t')) as Hc.
      rewrite Ht in Hc.
      unfold str_strip in Ht. rewrite (str_lstrip_id c t' Hc) in Ht.
      exact Ht. }
  assert (String.prefix "whatsapp:" (_formatear_numero isspace numero) = true)
    as Hprefijo.
  { unfold _formatear_numero.
    destruct (String.prefix "whatsapp:" (strip numero)) eqn:Hp; cbn [negb].
    - exact Hp.
    - apply prefix_append. }
  split; [exact Hprefijo |]. split.
  - unfold _formatear_numero at 1.
    assert (strip (_formatear_numero isspace numero)
            = _formatear_numero isspace numero) as Hid.
    { unfold _formatear_numero.
      destruct (String.prefix "whatsapp:" (strip numero)); cbn [negb].
      - apply str_strip_idem.
      - apply Hpre, str_strip_idem. }
    rewrite Hid, Hprefijo. reflexivity.
  - intros Hp. unfold _formatear_numero. rewrite Hp. reflexivity.
Qed.

End PropiedadesWhatsapp.

(** * Concrete instances of the further properties *)


Lemma X2_campos_del_resultado_witness :
  let r := {| puede_circular := true;
              razon := "Placa terminada en 5 con holograma 1 puede circular el martes sin restricciones.";
              restriccion_normal := false;
              restriccion_contingencia := false;
              nivel_contingencia := NINGUNA;
              dia := "martes";
              holograma := "1";
              ultimo_digito := 5 |} in
  evaluar_ejemplo 5 "1" NINGUNA (Some (mk_date 2024 1 2)) = inr r
  /\ ultimo_digito r = 5 /\ holograma r = "1" /\ nivel_contingencia r = NINGUNA
  /\ NOMBRES_DIA
       !! isoweekday (fecha_evaluada hoy_ejemplo (Some (mk_date 2024 1 2)))
     = Some (dia r).
Proof.
  intros r.
  assert (evaluar_ejemplo 5 "1" NINGUNA (Some (mk_date 2024 1 2)) = inr r)
    as Hev by (vm_compute; reflexivity).
  split; [exact Hev |].
  exact (X2_campos_del_resultado hoy_ejemplo strftime_A_C
           5 "1" NINGUNA (Some (mk_date 2024 1 2)) r Hev).
Defined.

Lemma X4_fase1_mismo_veredicto_witness :
  0 <= 5 <= 9 /\ "2" ∈ hologramas_validos
  /\ exists r0 r1,
       evaluar_ejemplo 5 "2" NINGUNA None = inr r0
       /\ evaluar_ejemplo 5 "2" FASE_1 None = inr r1
       /\ puede_circular r1 = puede_circular r0
       /\ restriccion_normal r1 = restriccion_normal r0.
Proof.
  assert (0 <= 5 <= 9) as Hd by lia.
  assert ("2" ∈ hologramas_validos) as Hh by en_lista.
  split; [exact Hd |]. split; [exact Hh |].
  exact (X4_fase1_mismo_veredicto hoy_ejemplo strftime_A_C 5 "2" None Hd Hh).
Defined.

Lemma X5_fase2_solo_restringe_witness :
  0 <= 7 <= 9 /\ "0" ∈ hologramas_validos
  /\ exists r0 r2,
       evaluar_ejemplo 7 "0" NINGUNA None = inr r0
       /\ evaluar_ejemplo 7 "0" FASE_2 None = inr r2
       /\ (puede_circular r2 = true -> puede_circular r0 = true)
       /\ restriccion_normal r2 = restriccion_normal r0.
Proof.
  assert (0 <= 7 <= 9) as Hd by lia.
  assert ("0" ∈ hologramas_validos) as Hh by en_lista.
  split; [exact Hd |]. split; [exact Hh |].
  exact (X5_fase2_solo_restringe hoy_ejemplo strftime_A_C 7 "0" None Hd Hh).
Defined.

Lemma X6_fin_de_semana_sin_contingencia_witness :
  0 <= 7 <= 9 /\ "2" ∈ hologramas_validos
  /\ (isoweekday (fecha_evaluada hoy_ejemplo (Some (mk_date 2024 1 6))) = 6
      \/ isoweekday (fecha_evaluada hoy_ejemplo (Some (mk_date 2024 1 6))) = 7)
  /\ exists r r',
       evaluar_ejemplo 7 "2" NINGUNA (Some (mk_date 2024 1 6)) = inr r
       /\ evaluar_ejemplo 7 "2" FASE_2 (Some (mk_date 2024 1 6)) = inr r'
       /\ puede_circular r = puede_circular r'.
Proof.
  assert (0 <= 7 <= 9) as Hd by lia.
  assert ("2" ∈ hologramas_validos) as Hh by en_lista.
  assert (isoweekday (fecha_evaluada hoy_ejemplo (Some (mk_date 2024 1 6))) = 6
          \/ isoweekday (fecha_evaluada hoy_ejemplo (Some (mk_date 2024 1 6)))
             = 7) as Hw by (left; reflexivity).
  split; [exact Hd |]. split; [exact Hh |]. split; [exact Hw |].
  exact (X6_fin_de_semana_sin_contingencia hoy_ejemplo strftime_A_C
           7 "2" NINGUNA FASE_2 (Some (mk_date 2024 1 6)) Hd Hh Hw).
Defined.

Lemma X7_un_dia_de_descanso_witness :
  0 <= 5 <= 9
  /\ exists w0,
       1 <= w0 <= 5
       /\ forall h fecha,
            h ∈ hologramas_restringidos ->
            1 <= isoweekday (fecha_evaluada hoy_ejemplo fecha) <= 5 ->
            exists r,
              evaluar_ejemplo 5 h NINGUNA fecha = inr r
              /\ (puede_circular r = false
                  <-> isoweekday (fecha_evaluada hoy_ejemplo fecha) = w0).
Proof.
  assert (0 <= 5 <= 9) as Hd by lia.
  split; [exact Hd |].
  exact (X7_un_dia_de_descanso hoy_ejemplo strftime_A_C 5 Hd).
Defined.

Lemma X8_semanas_del_mes_witness :
  date_valida (mk_date 2024 6 29) = true
  /\ 1 <= _semana_del_mes (mk_date 2024 6 29) <= 5
  /\ (_digitos_restringidos_sabado (mk_date 2024 6 29) = [5; 6; 7; 8]
      <-> (1 <= day (mk_date 2024 6 29) <= 7
           \/ 15 <= day (mk_date 2024 6 29) <= 21
           \/ 29 <= day (mk_date 2024 6 29) <= 31))
  /\ (_digitos_restringidos_sabado (mk_date 2024 6 29) = [0; 1; 2; 3; 4; 9]
      <-> (8 <= day (mk_date 2024 6 29) <= 14
           \/ 22 <= day (mk_date 2024 6 29) <= 28)).
Proof.
  assert (date_valida (mk_date 2024 6 29) = true) as Hv by reflexivity.
  split; [exact Hv |].
  exact (X8_semanas_del_mes (mk_date 2024 6 29) Hv).
Defined.

Lemma X10_fetch_html_witness :
  (forall html,
     _fetch_html red_caida "https://www.gob.mx/comisionambiental"
     = (Some html, None)
     <-> red_caida "https://www.gob.mx/comisionambiental"
         = GetResponse 200 html)
  /\ ((forall html,
         red_caida "https://www.gob.mx/comisionambiental"
         <> GetResponse 200 html) ->
      exists msg,
        _fetch_html red_caida "https://www.gob.mx/comisionambiental"
        = (None, Some msg)
        /\ str_bool msg = true).
Proof.
  exact (X10_fetch_html red_caida "https://www.gob.mx/comisionambiental").
Defined.

Lemma X13_sin_respuesta_no_hay_contingencia_witness :
  let r := verificar_contingencia isspace_ascii red_caida sin_parser
             (busca "Fase 2") (busca "Fase 1") in
  (forall url, url ∈ CAME_URLS ->
     forall html, red_caida url <> GetResponse 200 html)
  /\ hay_contingencia r = false
  /\ fase r = None
  /\ fase_a_nivel (fase r) = NINGUNA
  /\ detalle r
     = "No se pudo consultar el portal de la CAMe. Errores encontrados: "
       +:+ str_join " | "
             (map (fun url => default "" (snd (_fetch_html red_caida url)))
                CAME_URLS).
Proof.
  intros r.
  assert (forall url, url ∈ CAME_URLS ->
            forall html, red_caida url <> GetResponse 200 html) as Hno
    by (intros url _ html; discriminate).
  split; [exact Hno |].
  exact (X13_sin_respuesta_no_hay_contingencia isspace_ascii red_caida
           sin_parser (busca "Fase 2") (busca "Fase 1") Hno).
Defined.

Lemma X14_primera_respuesta_decide_witness :
  let red := red_solo_segunda pagina_ejemplo in
  (forall u,
     u ∈ ["https://www.gob.mx/comisionambiental/acciones-y-programas/contingencias-ambientales-atmosfericas"] ->
     forall h, red u <> GetResponse 200 h)
  /\ red "https://www.gob.mx/comisionambiental"
     = GetResponse 200 pagina_ejemplo
  /\ verificar_contingencia_desde isspace_ascii red sin_parser
       (busca "Fase 2") (busca "Fase 1")
       (["https://www.gob.mx/comisionambiental/acciones-y-programas/contingencias-ambientales-atmosfericas"]
        ++ "https://www.gob.mx/comisionambiental" :: []) []
     = verificar_contingencia_desde isspace_ascii red sin_parser
         (busca "Fase 2") (busca "Fase 1")
         ["https://www.gob.mx/comisionambiental"] [].
Proof.
  intros red.
  assert (forall u,
            u ∈ ["https://www.gob.mx/comisionambiental/acciones-y-programas/contingencias-ambientales-atmosfericas"] ->
            forall h, red u <> GetResponse 200 h) as Hpre.
  { intros u Hu h. casos_lista Hu. vm_compute. discriminate. }
  assert (red "https://www.gob.mx/comisionambiental"
          = GetResponse 200 pagina_ejemplo) as Hurl by reflexivity.
  split; [exact Hpre |]. split; [exact Hurl |].
  exact (X14_primera_respuesta_decide isspace_ascii red sin_parser
           (busca "Fase 2") (busca "Fase 1") _ [] []
           "https://www.gob.mx/comisionambiental" pagina_ejemplo Hpre Hurl).
Defined.

Lemma X15_texto_vacio_busca_en_html_witness :
  let red := red_con_pagina "   " in
  let r := verificar_contingencia_desde isspace_ascii red sin_parser
             (busca "Fase 2") (busca "Fase 1")
             ("https://www.gob.mx/comisionambiental" :: []) [] in
  red "https://www.gob.mx/comisionambiental" = GetResponse 200 "   "
  /\ _extraer_texto_limpio isspace_ascii sin_parser "   " = ""
  /\ fase r
     = fst (_detectar_fase isspace_ascii (busca "Fase 2") (busca "Fase 1")
              "   ")
  /\ detalle r
     = snd (_detectar_fase isspace_ascii (busca "Fase 2") (busca "Fase 1")
              "   ").
Proof.
  intros red r.
  assert (red "https://www.gob.mx/comisionambiental" = GetResponse 200 "   ")
    as Hurl by reflexivity.
  assert (_extraer_texto_limpio isspace_ascii sin_parser "   " = "")
    as Hvacio by reflexivity.
  split; [exact Hurl |]. split; [exact Hvacio |].
  exact (X15_texto_vacio_busca_en_html isspace_ascii red sin_parser
           (busca "Fase 2") (busca "Fase 1") [] []
           "https://www.gob.mx/comisionambiental" "   " Hurl Hvacio).
Defined.

Lemma X16_snippet_acotado_witness :
  let m := mk_Match 37 43 in
  0 <= m_start m <= m_end m
  /\ len (_extraer_snippet isspace_ascii pagina_ejemplo m)
     <= (m_end m - m_start m) + 2 * _SNIPPET_RADIO
  /\ len (_extraer_snippet isspace_ascii pagina_ejemplo m)
     <= len pagina_ejemplo
  /\ tiene_racha isspace_ascii
       (_extraer_snippet isspace_ascii pagina_ejemplo m) = false.
Proof.
  intros m.
  assert (0 <= m_start m <= m_end m) as Hm by (vm_compute; split; discriminate).
  split; [exact Hm |].
  exact (X16_snippet_acotado isspace_ascii pagina_ejemplo m Hm).
Defined.

Lemma X18_formatear_fecha_witness :
  (is_Some (formatear_fecha (mk_date 2026 2 26))
   <-> 1 <= month (mk_date 2026 2 26) <= 12)
  /\ (forall hoy loc d h n r s,
        evaluar_circulacion hoy loc d h n (Some (mk_date 2026 2 26)) = inr r ->
        formatear_fecha (mk_date 2026 2 26) = Some s ->
        String.prefix (dia r +:+ " ") s = true).
Proof. exact (X18_formatear_fecha (mk_date 2026 2 26)). Defined.

Lemma X19_configuracion_aceptada_witness :
  cargar_configuracion int_decimal env_ejemplo = inr config_ejemplo
  /\ exists d,
       config_ultimo_digito config_ejemplo = Some d
       /\ 0 <= d <= 9
       /\ config_holograma config_ejemplo ∈ hologramas_validos
       /\ opt_str_bool (env_ejemplo !! "TELEGRAM_BOT_TOKEN") = true
       /\ opt_str_bool (env_ejemplo !! "TELEGRAM_CHAT_ID") = true
       /\ forall n fecha,
            exists r,
              evaluar_ejemplo d (config_holograma config_ejemplo) n fecha
              = inr r.
Proof.
  assert (cargar_configuracion int_decimal env_ejemplo = inr config_ejemplo)
    as Hc by (vm_compute; reflexivity).
  split; [exact Hc |].
  exact (X19_configuracion_aceptada hoy_ejemplo strftime_A_C int_decimal
           env_ejemplo config_ejemplo Hc).
Defined.

Lemma X20_errores_de_configuracion_witness :
  let env := delete "HOLOGRAMA" env_ejemplo in
  "HOLOGRAMA" ∈ ["TELEGRAM_BOT_TOKEN"; "TELEGRAM_CHAT_ID";
                 "PLACA_ULTIMO_DIGITO"; "HOLOGRAMA"]
  /\ opt_str_bool (env !! "HOLOGRAMA") = false
  /\ exists errores,
       cargar_configuracion int_decimal env
       = inl ["❌ Errores de configuración en .env:" +:+ nl +:+
              str_join nl errores;
              nl +:+ "Copia .env.example a .env y completa los valores requeridos."]
       /\ ("  • " +:+ "HOLOGRAMA" +:+ " no está definida en .env") ∈ errores.
Proof.
  intros env.
  assert ("HOLOGRAMA" ∈ ["TELEGRAM_BOT_TOKEN"; "TELEGRAM_CHAT_ID";
                         "PLACA_ULTIMO_DIGITO"; "HOLOGRAMA"]) as Hvar
    by en_lista.
  assert (opt_str_bool (env !! "HOLOGRAMA") = false) as Hfalta
    by (vm_compute; reflexivity).
  split; [exact Hvar |]. split; [exact Hfalta |].
  exact (X20_errores_de_configuracion int_decimal env "HOLOGRAMA" Hvar Hfalta).
Defined.

Local Abbreviation main_ejemplo red hoy :=
  (main isspace_ascii red sin_parser (busca "Fase 2") (busca "Fase 1")
     hoy strftime_A_C int_decimal).




Lemma X25_formatear_numero_witness :
  isspace_ascii "w" = false /\ isspace_ascii ":" = false
  /\ String.prefix "whatsapp:"
       (_formatear_numero isspace_ascii " +521234567890 ") = true
  /\ _formatear_numero isspace_ascii
       (_formatear_numero isspace_ascii " +521234567890 ")
     = _formatear_numero isspace_ascii " +521234567890 "
  /\ (String.prefix "whatsapp:" (str_strip isspace_ascii " +521234567890 ")
      = true ->
      _formatear_numero isspace_ascii " +521234567890 "
      = str_strip isspace_ascii " +521234567890 ").
Proof.
  assert (isspace_ascii "w" = false) as Hw by reflexivity.
  assert (isspace_ascii ":" = false) as Hc by reflexivity.
  split; [exact Hw |]. split; [exact Hc |].
  exact (X25_formatear_numero isspace_ascii " +521234567890 " Hw Hc).
Defined.

Lemma X9_fase_a_nivel_witness :
  (fase_a_nivel (Some "fase 1") = FASE_1 <-> Some "fase 1" = Some "Fase 1")
  /\ (fase_a_nivel (Some "fase 1") = FASE_2
      <-> Some "fase 1" = Some "Fase 2")
  /\ (fase_a_nivel (Some "fase 1") = NINGUNA
      <-> Some "fase 1" <> Some "Fase 1" /\ Some "fase 1" <> Some "Fase 2").
Proof. exact (X9_fase_a_nivel (Some "fase 1")). Defined.

Lemma X11_fase_mas_grave_primero_witness :
  let texto := "Se mantiene la Fase 1; no se activa la Fase 2" in
  let nivel :=
    fase_a_nivel
      (fst (_detectar_fase isspace_ascii (busca "Fase 2") (busca "Fase 1")
              texto)) in
  (nivel = FASE_2 <-> is_Some (busca "Fase 2" texto))
  /\ (nivel = FASE_1
      <-> busca "Fase 2" texto = None /\ is_Some (busca "Fase 1" texto))
  /\ (nivel = NINGUNA
      <-> busca "Fase 2" texto = None /\ busca "Fase 1" texto = None).
Proof.
  intros texto.
  exact (X11_fase_mas_grave_primero isspace_ascii
           (busca "Fase 2") (busca "Fase 1") texto).
Defined.

Lemma X12_resultado_coherente_witness :
  let r := verificar_contingencia isspace_ascii
             (red_con_pagina pagina_ejemplo) sin_parser
             (busca "Fase 2") (busca "Fase 1") in
  (hay_contingencia r = true <-> fase r <> None)
  /\ (fase r = None \/ fase r = Some "Fase 1" \/ fase r = Some "Fase 2")
  /\ (hay_contingencia r = false <-> fase_a_nivel (fase r) = NINGUNA).
Proof.
  intros r.
  exact (X12_resultado_coherente isspace_ascii
           (red_con_pagina pagina_ejemplo) sin_parser
           (busca "Fase 2") (busca "Fase 1")).
Defined.
